(** * Zoom attendance analyzer: a model of [analyze_attendance.py]

    The development embeds the attendance engine of [analyze_file]: the
    conversion of the columns of the export (lines 78-82), the class
    bounds (85-94), the exclusion filter (102-103), the aggregation per
    student (106-124), the derived columns and the status (127-141), the
    flags (144-156), the counts and the attendance rate of the report, and
    the choice of the files by [pick_file_interactively] and [main].
    The layout of the console report and of the Excel sheets, and the
    failures of the file system, are not modelled.

    Conventions of the embedding.
    - A frame is the list of its rows, in the order of the file, as
      [pd.read_csv] returns them: a name is [Some s] when the cell holds
      the Python text [s] and [None] when it holds no text.
    - A pandas [Timestamp] is its integer count of nanoseconds; [NaT] is
      [None].
    - A finite [float64] is idealised as an exact rational of [Q]; the
      special values that pandas produces without raising (division by a
      zero duration, arithmetic on [NaT]) are the other constructors of
      [fnum].  A missing or coerced number ([NaN] in a data column) is
      [None].  The theorems that equate totals across rows, or across
      orders of the rows, are stated for whole minutes below 2^53 / 10,
      where the sums of [float64] are exact.
    - Text is a byte string (UTF-8), compared bytewise as Python compares
      text by code points.  The text operations of Python that the script
      calls ([str.lower], [str.strip], [int]) are the operations of the
      class [Python]; their ASCII versions serve on the sample exports.
    - An exception that leaves [analyze_file] is a [Raise] of [result]. *)

From Stdlib Require Import ZArith QArith Qround Qminmax Qabs Lqa Lia List String Ascii Bool
  Permutation Sorted DecimalString.
Import ListNotations.

Local Open Scope Z_scope.

(** ** Numbers *)

(** Values of a float column after an operation that may leave the finite
    range. *)
Inductive fnum : Type :=
| Fin (q : Q)
| PInf
| NInf
| NaN.

(** Rounding of a rational to the nearest integer, ties to even
    (the rule of [numpy.rint]). *)
Definition round_half_even (q : Q) : Z :=
  let n := Qnum q in
  let d := Zpos (Qden q) in
  let f := n / d in
  match 2 * (n mod d) ?= d with
  | Lt => f
  | Gt => f + 1
  | Eq => if Z.even f then f else f + 1
  end.

(** [round(x, 1)] and [Series.round(1)]: scale by ten, round, scale back. *)
Definition round1 (q : Q) : Q := (round_half_even (q * 10) # 10)%Q.

Definition fround1 (x : fnum) : fnum :=
  match x with
  | Fin q => Fin (round1 q)
  | other => other
  end.

(** [Series / class_duration] where the series holds finite values.  The
    divisor is a duration and is never infinite; zero is [+0.0]. *)
Definition fdiv (a : Q) (y : fnum) : fnum :=
  match y with
  | Fin b =>
      if Qeq_bool b 0 then
        match (a ?= 0)%Q with
        | Eq => NaN
        | Gt => PInf
        | Lt => NInf
        end
      else Fin (a / b)%Q
  | PInf | NInf => Fin 0%Q
  | NaN => NaN
  end.

(** [Series * 100]. *)
Definition fmul100 (x : fnum) : fnum :=
  match x with
  | Fin q => Fin (q * 100)%Q
  | other => other
  end.

(** [Series.clip(lower=0)]; [NaN] stays [NaN]. *)
Definition fclip0 (x : fnum) : fnum :=
  match x with
  | Fin q => Fin (if Qle_bool q 0 then 0%Q else q)
  | PInf => PInf
  | NInf => Fin 0%Q
  | NaN => NaN
  end.

(** [Series > t] and [value >= t] against a finite threshold; every
    comparison with [NaN] is [False]. *)
Definition fgt (x : fnum) (t : Q) : bool :=
  match x with
  | Fin q => negb (Qle_bool q t)
  | PInf => true
  | NInf | NaN => false
  end.

Definition fge (x : fnum) (t : Q) : bool :=
  match x with
  | Fin q => Qle_bool t q
  | PInf => true
  | NInf | NaN => false
  end.

(** ** Time *)

Definition Timestamp : Type := Z.

(** [Timedelta.total_seconds()] of a difference of two timestamps. *)
Definition total_seconds (td : Z) : Q := (td # 1000000000)%Q.

(** [(b - a).total_seconds() / 60]; [NaT] on either side gives [NaN]. *)
Definition minutes_between (a b : option Timestamp) : fnum :=
  match a, b with
  | Some x, Some y => Fin (total_seconds (y - x) / 60)%Q
  | _, _ => NaN
  end.

(** [Series.min()] and [Series.max()] of a datetime column: [NaT] entries
    are skipped, and a column without any timestamp gives [NaT]. *)
Fixpoint col_min (l : list (option Timestamp)) : option Timestamp :=
  match l with
  | [] => None
  | None :: l' => col_min l'
  | Some t :: l' =>
      match col_min l' with
      | None => Some t
      | Some m => Some (Z.min t m)
      end
  end.

Fixpoint col_max (l : list (option Timestamp)) : option Timestamp :=
  match l with
  | [] => None
  | None :: l' => col_max l'
  | Some t :: l' =>
      match col_max l' with
      | None => Some t
      | Some m => Some (Z.max t m)
      end
  end.

(** [Series.sum()] of a float column: [NaN] entries are skipped, the empty
    sum is [0]. *)
Fixpoint col_sum (l : list (option Q)) : Q :=
  match l with
  | [] => 0%Q
  | None :: l' => col_sum l'
  | Some d :: l' => (d + col_sum l')%Q
  end.

(** ** Text *)

(** The text operations of Python that the script calls. *)
Class Python : Type := {
  lower : string -> string;             (* [str.lower()] *)
  strip : string -> string;             (* [str.strip()] *)
  int_of_string : string -> option Z    (* [int(s)]; [None] is [ValueError] *)
}.

(** Their versions on ASCII text. *)
Definition lower_ascii (c : ascii) : ascii :=
  let n := nat_of_ascii c in
  if andb (Nat.leb 65 n) (Nat.leb n 90) then ascii_of_nat (n + 32) else c.

Fixpoint ascii_lower (s : string) : string :=
  match s with
  | EmptyString => EmptyString
  | String c s' => String (lower_ascii c) (ascii_lower s')
  end.

Definition is_space (c : ascii) : bool :=
  let n := nat_of_ascii c in
  orb (andb (Nat.leb 9 n) (Nat.leb n 13))
      (orb (andb (Nat.leb 28 n) (Nat.leb n 31)) (Nat.eqb n 32)).

Fixpoint lstrip (s : string) : string :=
  match s with
  | EmptyString => EmptyString
  | String c s' => if is_space c then lstrip s' else s
  end.

Fixpoint rstrip (s : string) : string :=
  match s with
  | EmptyString => EmptyString
  | String c s' =>
      match rstrip s' with
      | EmptyString => if is_space c then EmptyString else String c EmptyString
      | rest => String c rest
      end
  end.

Definition ascii_strip (s : string) : string := rstrip (lstrip s).

Definition digit_of (c : ascii) : option Z :=
  let n := nat_of_ascii c in
  if andb (Nat.leb 48 n) (Nat.leb n 57) then Some (Z.of_nat (n - 48)) else None.

(** Decimal digits, with single underscores allowed between two digits. *)
Fixpoint int_digits (acc : Z) (after_digit : bool) (s : string) : option Z :=
  match s with
  | EmptyString => if after_digit then Some acc else None
  | String c s' =>
      match digit_of c with
      | Some d => int_digits (acc * 10 + d) true s'
      | None =>
          if andb (Ascii.eqb c "_") after_digit then int_digits acc false s'
          else None
      end
  end.

Definition ascii_int (s : string) : option Z :=
  match s with
  | String "+" s' => int_digits 0 false s'
  | String "-" s' => option_map Z.opp (int_digits 0 false s')
  | _ => int_digits 0 false s
  end.

Definition ascii_python : Python :=
  {| lower := ascii_lower; strip := ascii_strip; int_of_string := ascii_int |}.

(** [Series.isin(values)]: a missing value is in no list of strings. *)
Definition isin (o : option string) (values : list string) : bool :=
  match o with
  | Some s => existsb (String.eqb s) values
  | None => false
  end.

(** [Series == value]: a missing value equals no string. *)
Definition str_eq (o : option string) (v : string) : bool :=
  match o with
  | Some s => String.eqb s v
  | None => false
  end.

(** ** Failures *)

(** The exceptions that leave [analyze_file] before the summary is built. *)
Inductive exn : Type :=
| DateParseError      (* [pd.to_datetime] met text that is no date *)
| AttributeError      (* [.str] on a column that holds no text *)
| NaTStrftime         (* [class_start.strftime] on [NaT] *)
| EmptySummary.       (* no group: the applied frame has no summary columns *)

Inductive result (A : Type) : Type :=
| Ok (a : A)
| Raise (e : exn).

Arguments Ok {A} a.
Arguments Raise {A} e.

Definition bind {A B : Type} (m : result A) (k : A -> result B) : result B :=
  match m with
  | Ok a => k a
  | Raise e => Raise e
  end.

Notation "x <- m ;; k" := (bind m (fun x => k))
  (at level 61, m at next level, right associativity).

(** The end of a function of the command line: a value, or [sys.exit]. *)
Inductive outcome (A : Type) : Type :=
| Return (a : A)
| Exit (code : Z).

Arguments Return {A} a.
Arguments Exit {A} code.

(** ** The export and the loaded frame *)

(** A cell of a time column of the frame that [pd.read_csv] returns: a
    value that [pd.to_datetime] reads as a timestamp, an empty cell, or
    text that is no date. *)
Inductive time_cell : Type :=
| TimeText (t : Timestamp)
| TimeBlank
| TimeGarbage (s : string).

(** A cell of the duration column: a value that [pd.to_numeric] reads as
    a number, an empty cell, or text that is no number. *)
Inductive num_cell : Type :=
| NumText (q : Q)
| NumBlank
| NumGarbage (s : string).

(** A row of the frame that [pd.read_csv] returns.  A name is [Some s]
    when the cell holds the text [s], and [None] when it holds no text:
    an empty cell, or a cell of a column that was read as numbers or
    booleans.  An address is [None] when the cell is empty, and otherwise
    [Some s] for the cell whose [str] is [s]. *)
Record raw_row : Type := mk_raw {
  raw_User_Name : option string;
  raw_User_Email : option string;
  raw_Join_time : time_cell;
  raw_Leave_time : time_cell;
  raw_Duration : num_cell
}.

Record row : Type := mk_row {
  User_Name : option string;
  User_Email : option string;
  Join_time : option Timestamp;
  Leave_time : option Timestamp;
  Duration : option Q
}.

Definition DataFrame : Type := list row.

(** [pd.to_datetime(column)] with the default [errors='raise']. *)
Fixpoint to_datetime (col : list time_cell) : result (list (option Timestamp)) :=
  match col with
  | [] => Ok []
  | TimeGarbage _ :: _ => Raise DateParseError
  | TimeText t :: col' => ts <- to_datetime col' ;; Ok (Some t :: ts)
  | TimeBlank :: col' => ts <- to_datetime col' ;; Ok (None :: ts)
  end.

(** [pd.to_numeric(column, errors='coerce')]. *)
Definition to_numeric_cell (c : num_cell) : option Q :=
  match c with
  | NumText q => Some q
  | NumBlank | NumGarbage _ => None
  end.

Definition to_numeric (col : list num_cell) : list (option Q) :=
  map to_numeric_cell col.

(** The frame whose three converted columns replace the raw ones. *)
Fixpoint assign (csv : list raw_row)
    (joins leaves : list (option Timestamp)) (durs : list (option Q)) : DataFrame :=
  match csv, joins, leaves, durs with
  | r :: csv', j :: joins', l :: leaves', d :: durs' =>
      mk_row (raw_User_Name r) (raw_User_Email r) j l d
        :: assign csv' joins' leaves' durs'
  | _, _, _, _ => []
  end.

(** Lines 78-82: load and convert the columns. *)
Definition load (csv : list raw_row) : result DataFrame :=
  joins <- to_datetime (map raw_Join_time csv) ;;
  leaves <- to_datetime (map raw_Leave_time csv) ;;
  Ok (assign csv joins leaves (to_numeric (map raw_Duration csv))).

(** Rows that carry a participant name. *)
Definition named (r : row) : bool :=
  match User_Name r with
  | Some _ => true
  | None => false
  end.

Definition empty {A : Type} (l : list A) : bool :=
  match l with
  | [] => true
  | _ :: _ => false
  end.

(** [df['User Name'].str] (lines 85 and 103): the accessor is there on a
    column of text.  A column with rows of which none holds text is a
    column of floats, of integers or of booleans, on which [.str] raises;
    the column of a frame without rows is a column of text. *)
Definition str_accessor (df : DataFrame) : result unit :=
  if orb (empty df) (existsb named df) then Ok tt else Raise AttributeError.

(** ** Configuration *)

Record config : Type := mk_config {
  professor : string;
  exclude : list string;
  min_attendance_pct : Q;
  late_threshold_min : Q;
  early_leave_threshold_min : Q;
  ghost_join_max_min : Q
}.

(** The [CONFIG] of the script. *)
Definition CONFIG : config :=
  mk_config "beth bonsignore"%string
    ["beth bonsignore"%string; "jay walter"%string; "Vivek Chaurasia"%string]
    50%Q 10%Q 10%Q 2%Q.

Section Model.

Context {py : Python}.

(** ** Class bounds (lines 85-94) *)

Inductive warning : Type :=
| ProfessorNotFound (name : string).

(** [Series.str.lower()]: a missing value stays missing. *)
Definition str_lower (o : option string) : option string :=
  match o with
  | Some s => Some (lower s)
  | None => None
  end.

Definition is_professor (cfg : config) (r : row) : bool :=
  str_eq (str_lower (User_Name r)) (lower (professor cfg)).

Definition prof_rows (cfg : config) (df : DataFrame) : DataFrame :=
  filter (is_professor cfg) df.

Record bounds : Type := mk_bounds {
  printed : list warning;
  class_start : option Timestamp;
  class_end : option Timestamp
}.

(** Lines 86-92, once the comparison of line 85 is made. *)
Definition class_bounds (cfg : config) (df : DataFrame) : bounds :=
  let rows := prof_rows cfg df in
  if empty rows then
    mk_bounds [ProfessorNotFound (professor cfg)]
      (col_min (map Join_time df)) (col_max (map Leave_time df))
  else
    mk_bounds [] (col_min (map Join_time rows)) (col_max (map Leave_time rows)).

(** Lines 85-92: the class bounds, or the failure of line 85. *)
Definition class_window (cfg : config) (df : DataFrame) : result bounds :=
  _ <- str_accessor df ;; Ok (class_bounds cfg df).

(** [(class_end - class_start).total_seconds() / 60]. *)
Definition class_duration (b : bounds) : fnum :=
  minutes_between (class_start b) (class_end b).

(** ** Students and their groups (lines 102-124) *)

Definition exclude_lower (cfg : config) : list string :=
  map lower (exclude cfg).

Definition is_student (cfg : config) (r : row) : bool :=
  negb (isin (str_lower (User_Name r)) (exclude_lower cfg)).

(** The rows kept by line 103, once [.str] is there. *)
Definition students (cfg : config) (df : DataFrame) : DataFrame :=
  filter (is_student cfg) df.

(** Line 103: the rows kept, or the failure of [.str]. *)
Definition students_of (cfg : config) (df : DataFrame) : result DataFrame :=
  _ <- str_accessor df ;; Ok (students cfg df).

(** The keys of [groupby('User Name')]: the names present, each once, in
    increasing order; rows without a name have no key. *)
Fixpoint names (df : DataFrame) : list string :=
  match df with
  | [] => []
  | r :: df' =>
      match User_Name r with
      | Some n => n :: names df'
      | None => names df'
      end
  end.

Fixpoint insert_key (k : string) (ks : list string) : list string :=
  match ks with
  | [] => [k]
  | k' :: ks' => if String.leb k k' then k :: ks else k' :: insert_key k ks'
  end.

Definition sort_keys (ks : list string) : list string :=
  fold_right insert_key [] ks.

Definition group_keys (df : DataFrame) : list string :=
  sort_keys (nodup string_dec (names df)).

Definition has_name (k : string) (r : row) : bool :=
  str_eq (User_Name r) k.

Definition get_group (df : DataFrame) (k : string) : DataFrame :=
  filter (has_name k) df.

Definition groupby (df : DataFrame) : list (string * DataFrame) :=
  map (fun k => (k, get_group df k)) (group_keys df).

(** The series that [agg_student] returns for one group. *)
Record agg : Type := mk_agg {
  Email : string;
  Total_Minutes : Q;
  Raw_Sessions : nat;
  Real_Sessions : nat;
  First_Join : option Timestamp;
  Last_Leave : option Timestamp
}.

(** [pd.notna(v) and str(v).strip()] *)
Definition nonblank (v : string) : bool :=
  match strip v with
  | EmptyString => false
  | String _ _ => true
  end.

Fixpoint first_email (col : list (option string)) : string :=
  match col with
  | [] => EmptyString
  | Some v :: col' => if nonblank v then v else first_email col'
  | None :: col' => first_email col'
  end.

(** [grp['Duration(Minutes)'] > ghost]: [NaN] compares false. *)
Definition longer_than (ghost : Q) (r : row) : bool :=
  match Duration r with
  | Some d => negb (Qle_bool d ghost)
  | None => false
  end.

Definition agg_student (cfg : config) (grp : DataFrame) : agg :=
  let email := first_email (map User_Email grp) in
  let total_min := col_sum (map Duration grp) in
  let sessions := List.length grp in
  let first_join := col_min (map Join_time grp) in
  let last_leave := col_max (map Leave_time grp) in
  let real_sessions := filter (longer_than (ghost_join_max_min cfg)) grp in
  let real_session_count := List.length real_sessions in
  mk_agg email (round1 total_min) sessions real_session_count
    first_join last_leave.

(** ** Derived columns and status (lines 127-141) *)

Inductive status : Type :=
| Ghost_Join
| Present
| Absent_Brief.

Record summary_row : Type := mk_summary {
  Name : string;
  Agg : agg;
  Pct_Attended : fnum;
  Late_Join_Min : fnum;
  Left_Early_Min : fnum;
  Is_Late : bool;
  Left_Early : bool;
  Reconnected : bool;
  Ghost_Only : bool;
  Status : status
}.

Definition derive (cfg : config) (b : bounds) (name : string) (a : agg)
  : summary_row :=
  let pct := fround1 (fmul100 (fdiv (Total_Minutes a) (class_duration b))) in
  let late := fclip0 (fround1 (minutes_between (class_start b) (First_Join a))) in
  let early := fclip0 (fround1 (minutes_between (Last_Leave a) (class_end b))) in
  let ghost_only := Qle_bool (Total_Minutes a) (ghost_join_max_min cfg) in
  mk_summary name a pct late early
    (fgt late (late_threshold_min cfg))
    (fgt early (early_leave_threshold_min cfg))
    (Nat.ltb 1 (Real_Sessions a))
    ghost_only
    (if ghost_only then Ghost_Join
     else if fge pct (min_attendance_pct cfg) then Present
     else Absent_Brief).

(** The summary frame: one row per group, in key order. *)
Definition summarize (cfg : config) (b : bounds) (studs : DataFrame)
  : list summary_row :=
  map (fun g => derive cfg b (fst g) (agg_student cfg (snd g))) (groupby studs).

(** ** The analysis *)

Record analysis : Type := mk_analysis {
  window : bounds;
  duration_min : fnum;
  summary : list summary_row
}.

(** [analyze_file] from line 85 on, on the loaded frame, but for the
    writing of the sheets.  The date of the class is formatted from
    [class_start] right after the bounds are known (line 95), which raises
    on [NaT]; when no group is left, [apply] gives back a frame without
    the columns of [agg_student], on which the next lines raise; and the
    statistics format [class_end] (line 237), which raises on [NaT]. *)
Definition analyze_frame (cfg : config) (df : DataFrame) : result analysis :=
  b <- class_window cfg df ;;
  let dur := class_duration b in
  match class_start b with
  | None => Raise NaTStrftime
  | Some _ =>
      studs <- students_of cfg df ;;
      if empty (groupby studs) then Raise EmptySummary
      else
        match class_end b with
        | None => Raise NaTStrftime
        | Some _ => Ok (mk_analysis b dur (summarize cfg b studs))
        end
  end.

Definition analyze_file (cfg : config) (csv : list raw_row) : result analysis :=
  df <- load csv ;; analyze_frame cfg df.

(** ** Flags (lines 144-156) *)

Definition string_of_nat (n : nat) : string :=
  NilZero.string_of_uint (Nat.to_uint n).

(** [f"{x:.0f}"]: the nearest integer, ties to even, with the sign of
    [x]. *)
Definition format_0f (x : fnum) : string :=
  match x with
  | Fin q =>
      ((if Qle_bool 0 q then "" else "-")
       ++ string_of_nat (Z.abs_nat (round_half_even q)))%string
  | PInf => "inf"%string
  | NInf => "-inf"%string
  | NaN => "nan"%string
  end.

Definition build_flags (r : summary_row) : string :=
  let flags := [] in
  let flags :=
    if Is_Late r
    then flags ++ [("late +" ++ format_0f (Late_Join_Min r) ++ "min")%string]
    else flags in
  let flags :=
    if Left_Early r
    then flags ++ [("left early -" ++ format_0f (Left_Early_Min r) ++ "min")%string]
    else flags in
  let flags :=
    if Reconnected r
    then flags ++ [("reconnected " ++ string_of_nat (Real_Sessions (Agg r)) ++ "x")%string]
    else flags in
  let flags :=
    if Ghost_Only r then flags ++ ["ghost join (≤2min)"%string] else flags in
  String.concat ", " flags.

(** ** Counts and class statistics (lines 159-164 and 234-243) *)

Definition status_eqb (a b : status) : bool :=
  match a, b with
  | Ghost_Join, Ghost_Join | Present, Present | Absent_Brief, Absent_Brief => true
  | _, _ => false
  end.

(** [summary[summary['Status'] == st]]. *)
Definition with_status (st : status) (summ : list summary_row) : list summary_row :=
  filter (fun r => status_eqb (Status r) st) summ.

(** [len(present)], [len(absent)] and [len(ghosts)]; sorting a frame
    keeps its rows, so the lengths are those of the selections. *)
Definition len_present (summ : list summary_row) : nat :=
  List.length (with_status Present summ).

Definition len_absent (summ : list summary_row) : nat :=
  List.length (with_status Absent_Brief summ).

Definition len_ghosts (summ : list summary_row) : nat :=
  List.length (with_status Ghost_Join summ).

(** [len(present) / max(len(summary) - len(ghosts), 1) * 100], the number
    behind the 'Attendance Rate' of the statistics sheet. *)
Definition attendance_rate (summ : list summary_row) : Q :=
  (inject_Z (Z.of_nat (len_present summ))
   / inject_Z (Z.max (Z.of_nat (List.length summ) - Z.of_nat (len_ghosts summ)) 1)
   * 100)%Q.

(** ** Choice of the files (lines 42-69 and 259-276) *)

(** [pick_file_interactively], given the sorted result of the glob and
    the line typed at the prompt. *)
Definition pick_file_interactively (files : list string) (typed : string)
  : outcome (list string) :=
  if empty files then Exit 1
  else
    let choice := lower (strip typed) in
    if String.eqb choice "a" then Return files
    else
      match int_of_string choice with
      | Some n =>
          let idx := n - 1 in
          if andb (0 <=? idx) (idx <? Z.of_nat (List.length files))
          then Return [nth (Z.to_nat idx) files EmptyString]
          else Exit 1
      | None => Exit 1
      end.

(** The parsed command line. *)
Record arguments : Type := mk_arguments {
  args_file : option string;
  args_all : bool
}.

(** The files that [main] goes through, once the arguments are parsed
    (lines 261-273). *)
Definition main_files (args : arguments) (found : list string) (typed : string)
  : outcome (list string) :=
  match args_file args with
  | Some (String c s) => Return [String c s]
  | _ =>
      if args_all args then
        if empty found then Exit 1 else Return found
      else pick_file_interactively found typed
  end.

(** [main] up to its loop: [parse_args] may itself end the program (an
    unknown option, or a request for help); its result is given. *)
Definition main (parsed : outcome arguments) (found : list string) (typed : string)
  : outcome (list string) :=
  match parsed with
  | Exit code => Exit code
  | Return args => main_files args found typed
  end.

(** The loop of [main] over the exports of the files, in their order: the
    analyses made, and the exception that ended the loop if any. *)
Fixpoint analyze_each (cfg : config) (exports : list (list raw_row))
  : list analysis * option exn :=
  match exports with
  | [] => ([], None)
  | csv :: rest =>
      match analyze_file cfg csv with
      | Raise e => ([], Some e)
      | Ok out =>
          let (done, err) := analyze_each cfg rest in
          (out :: done, err)
      end
  end.

(** * Vocabulary of the statements *)

(** The earliest (latest) timestamp of column [f] among the rows of [df]
    that satisfy [P]; [None] when no such row has a timestamp. *)
Definition earliest (P : row -> Prop) (f : row -> option Timestamp)
    (df : DataFrame) (m : option Timestamp) : Prop :=
  match m with
  | Some t =>
      (exists r, In r df /\ P r /\ f r = Some t) /\
      (forall r t', In r df -> P r -> f r = Some t' -> t <= t')
  | None => forall r, In r df -> P r -> f r = None
  end.

Definition latest (P : row -> Prop) (f : row -> option Timestamp)
    (df : DataFrame) (m : option Timestamp) : Prop :=
  match m with
  | Some t =>
      (exists r, In r df /\ P r /\ f r = Some t) /\
      (forall r t', In r df -> P r -> f r = Some t' -> t' <= t)
  | None => forall r, In r df -> P r -> f r = None
  end.

(** A row matches the authority when it has a name equal to the
    professor's once both are lower-cased. *)
Definition matches_authority (cfg : config) (r : row) : Prop :=
  exists n, User_Name r = Some n /\ lower n = lower (professor cfg).


(** What [pd.to_datetime] makes of a cell that it accepts. *)
Definition parsed_time (c : time_cell) : option Timestamp :=
  match c with
  | TimeText t => Some t
  | TimeBlank | TimeGarbage _ => None
  end.

Definition unparseable (c : time_cell) : Prop :=
  exists s, c = TimeGarbage s.

(** The row of the loaded frame that comes from a row of the export. *)
Definition typed_row (r : raw_row) : row :=
  mk_row (raw_User_Name r) (raw_User_Email r)
    (parsed_time (raw_Join_time r)) (parsed_time (raw_Leave_time r))
    (to_numeric_cell (raw_Duration r)).

(** Sum of the [Total_Minutes] column of the summary. *)
Definition sum_totals (l : list summary_row) : Q :=
  fold_right (fun s acc => (Total_Minutes (Agg s) + acc)%Q) 0%Q l.

(** Sum over a list of keys. *)
Definition sum_over (keys : list string) (f : string -> Q) : Q :=
  fold_right (fun k acc => (f k + acc)%Q) 0%Q keys.

(** A number with at most one decimal place. *)
Definition one_decimal (q : Q) : Prop := exists z : Z, (q == z # 10)%Q.

(** Comparisons of a float with a finite threshold, as propositions. *)
Definition Fge (x : fnum) (t : Q) : Prop :=
  match x with
  | Fin q => (t <= q)%Q
  | PInf => True
  | NInf | NaN => False
  end.

Definition Fgt (x : fnum) (t : Q) : Prop :=
  match x with
  | Fin q => (t < q)%Q
  | PInf => True
  | NInf | NaN => False
  end.


Definition Fle (x : fnum) (t : Q) : Prop :=
  match x with
  | Fin q => (q <= t)%Q
  | NInf => True
  | PInf | NaN => False
  end.

(** A frame whose name column is a column of text: it has no row, or a
    row with a name. *)
Definition text_names (df : DataFrame) : Prop :=
  df = [] \/ exists r n, In r df /\ User_Name r = Some n.

(** The sum of the absolute values of a column. *)
Definition abs_sum (col : list (option Q)) : Q :=
  col_sum (map (option_map Qabs) col).

(** Frames whose durations are whole minutes, small enough for every sum
    of them, and ten times it, to be an integer below 2^53, which
    [float64] holds exactly. *)
Definition whole_minutes (df : DataFrame) : Prop :=
  (forall r d, In r df -> Duration r = Some d -> exists z : Z, (d == inject_Z z)%Q) /\
  (abs_sum (map Duration df) <= 900000000000000)%Q.

(** ** Vocabulary of the further properties *)

(** The order of the keys of [groupby]. *)
Definition key_le (a b : string) : Prop := String.leb a b = true.

(** A row of the summary, its e-mail address left out. *)
Definition without_email (a : agg) : agg :=
  mk_agg EmptyString (Total_Minutes a) (Raw_Sessions a) (Real_Sessions a)
    (First_Join a) (Last_Leave a).

Definition forget_email (s : summary_row) : summary_row :=
  mk_summary (Name s) (without_email (Agg s)) (Pct_Attended s)
    (Late_Join_Min s) (Left_Early_Min s) (Is_Late s) (Left_Early s)
    (Reconnected s) (Ghost_Only s) (Status s).


(** An export of which every time cell can be read. *)
Definition readable (csv : list raw_row) : Prop :=
  forall r, In r csv ->
    ~ unparseable (raw_Join_time r) /\ ~ unparseable (raw_Leave_time r).

(** Frames without a negative duration. *)
Definition nonneg_durations (df : DataFrame) : Prop :=
  forall r d, In r df -> Duration r = Some d -> (0 <= d)%Q.

(** Frames in which every row that has a join time has a leave time
    that is not before it. *)
Definition leaves_after_joins (df : DataFrame) : Prop :=
  forall r j, In r df -> Join_time r = Some j ->
    exists l, Leave_time r = Some l /\ j <= l.

(** * Sample exports *)

(** A time of day of the day of the class. *)
Definition at_time (h m s : Z) : Timestamp :=
  ((h * 60 + m) * 60 + s) * 1000000000.

Definition session (name : string) (j l : Timestamp) (d : Q) : raw_row :=
  mk_raw (Some name) None (TimeText j) (TimeText l) (NumText d).

(** The class of one hour held by the professor, with four students. *)
Definition class_csv : list raw_row :=
  [ session "Beth Bonsignore" (at_time 9 0 0) (at_time 10 0 0) 60;
    session "Ann" (at_time 9 0 0) (at_time 10 0 0) 60;
    session "Bob" (at_time 9 15 0) (at_time 10 0 0) 45;
    session "Cyd" (at_time 9 0 0) (at_time 9 20 0) 20;
    session "Cyd" (at_time 9 40 0) (at_time 10 0 0) 20;
    session "Dee" (at_time 9 0 0) (at_time 9 1 0) 1 ].

Definition class_df : DataFrame := map typed_row class_csv.

(** Two students whose names differ in case only. *)
Definition case_csv : list raw_row :=
  [ session "Beth Bonsignore" (at_time 9 0 0) (at_time 10 0 0) 60;
    session "Alice" (at_time 9 0 0) (at_time 9 30 0) 30;
    session "alice" (at_time 9 30 0) (at_time 10 0 0) 30 ].

Definition case_df : DataFrame := map typed_row case_csv.

(** A student whose duration has two decimal places. *)
Definition decimal_csv : list raw_row :=
  [ session "Beth Bonsignore" (at_time 9 0 0) (at_time 10 0 0) 60;
    session "Ann" (at_time 9 0 0) (at_time 9 12 20) (1234 # 100) ].

Definition decimal_df : DataFrame := map typed_row decimal_csv.

(** A row without a participant name among the rows of the class. *)
Definition unnamed_row : row :=
  mk_row None None (Some (at_time 8 55 0)) (Some (at_time 10 5 0)) (Some 70%Q).

Definition unnamed_df : DataFrame := tl class_df ++ [unnamed_row].


(** A footer line of an export: no cell of it can be read. *)
Definition footer_raw : raw_row :=
  mk_raw (Some "Total"%string) None
    (TimeGarbage "--") (TimeGarbage "--") (NumGarbage "--").

(** A student who joins ten minutes and two seconds after the start. *)
Definition late_csv : list raw_row :=
  [ session "Beth Bonsignore" (at_time 9 0 0) (at_time 10 0 0) 60;
    session "Ann" (at_time 9 10 2) (at_time 10 0 0) 50 ].

Definition late_df : DataFrame := map typed_row late_csv.

(** A professor whose join and leave times coincide. *)
Definition degenerate_csv : list raw_row :=
  [ session "Beth Bonsignore" (at_time 9 0 0) (at_time 9 0 0) 0;
    session "Ann" (at_time 9 0 0) (at_time 9 5 0) 5 ].

Definition degenerate_df : DataFrame := map typed_row degenerate_csv.

(** A student whose first two sessions carry no e-mail address. *)
Definition email_df : DataFrame :=
  [ mk_row (Some "Ann"%string) None
      (Some (at_time 9 0 0)) (Some (at_time 9 10 0)) (Some 10%Q);
    mk_row (Some "Ann"%string) (Some "  "%string)
      (Some (at_time 9 12 0)) (Some (at_time 9 30 0)) (Some 18%Q);
    mk_row (Some "Ann"%string) (Some "ann@umd.edu"%string)
      (Some (at_time 9 31 0)) (Some (at_time 9 50 0)) (Some 19%Q);
    mk_row (Some "Ann"%string) (Some "ann@example.org"%string)
      (Some (at_time 9 51 0)) (Some (at_time 10 0 0)) (Some 9%Q) ].

(** The row of a student of the class in the summary. *)
Definition class_row (name : string) : summary_row :=
  derive CONFIG (class_bounds CONFIG class_df) name
    (agg_student CONFIG (get_group (students CONFIG class_df) name)).

(** An export whose only row has no name, and a duration that is no
    number. *)
Definition nameless_raw : raw_row :=
  mk_raw None None (TimeText (at_time 8 55 0)) (TimeText (at_time 10 5 0))
    (NumGarbage "abc").

Definition nameless_df : DataFrame := [typed_row nameless_raw].

End Model.

(** * Properties *)

Section Properties.

Context {py : Python}.

(** ** Rounding *)

Lemma round_half_even_comp (p q : Q) : (p == q)%Q -> round_half_even p = round_half_even q.
Proof.
  destruct p as [n d], q as [n' d']. unfold Qeq, round_half_even. cbn [Qnum Qden]. intros E.
  assert (F : n / Zpos d = n' / Zpos d').
  { apply (Qfloor_comp (n # d) (n' # d')). exact E. }
  rewrite !Z.mod_eq by lia. rewrite <- F.
  set (f := n / Zpos d) in *.
  assert (C : (2 * (n - Zpos d * f) ?= Zpos d) = (2 * (n' - Zpos d' * f) ?= Zpos d')).
  { destruct (Z.compare_spec (2 * (n' - Zpos d' * f)) (Zpos d')) as [H|H|H].
    - apply Z.compare_eq_iff. nia.
    - apply Z.compare_lt_iff. nia.
    - apply Z.compare_gt_iff. nia. }
  rewrite C. reflexivity.
Qed.


Lemma round_half_even_Z (z : Z) (q : Q) : (q == inject_Z z)%Q -> round_half_even q = z.
Proof.
  intros E. rewrite (round_half_even_comp _ _ E).
  unfold round_half_even, inject_Z. cbn [Qnum Qden].
  rewrite Z.mod_1_r, Z.div_1_r. reflexivity.
Qed.

Lemma round1_exact (q : Q) (z : Z) : (q == z # 10)%Q -> (round1 q == q)%Q.
Proof.
  intros E. unfold round1.
  rewrite (round_half_even_Z z).
  - symmetry. exact E.
  - rewrite E. unfold Qeq, inject_Z. simpl. lia.
Qed.

Lemma round_half_even_nonpos (q : Q) : (q <= 0)%Q -> round_half_even q <= 0.
Proof.
  destruct q as [n d]. unfold Qle, round_half_even. cbn [Qnum Qden]. intros H.
  assert (Hn : n <= 0) by lia.
  pose proof (Z.div_mod n (Zpos d) ltac:(lia)) as E.
  pose proof (Z.mod_pos_bound n (Zpos d) ltac:(lia)) as B.
  assert (n / Zpos d <= 0) by (apply Z.div_le_upper_bound; lia).
  destruct (Z.compare_spec (2 * (n mod Zpos d)) (Zpos d)) as [C|C|C].
  - destruct (Z.even _); nia.
  - lia.
  - nia.
Qed.

Lemma round1_nonpos (q : Q) : (q <= 0)%Q -> (round1 q <= 0)%Q.
Proof.
  intros H. unfold round1.
  assert (round_half_even (q * 10) <= 0) by (apply round_half_even_nonpos; lra).
  unfold Qle. simpl. lia.
Qed.

(** ** Column minimum and maximum *)

Lemma col_min_None (l : list (option Timestamp)) :
  col_min l = None <-> forall t, ~ In (Some t) l.
Proof.
  induction l as [|[x|] l IH]; simpl.
  - split; [intros _ t []|reflexivity].
  - split.
    + destruct (col_min l); discriminate.
    + intros H. exfalso. apply (H x). left; reflexivity.
  - rewrite IH. split; intros H t.
    + intros [E|E]; [discriminate|exact (H t E)].
    + intros E. apply (H t). right; exact E.
Qed.

Lemma col_min_In (l : list (option Timestamp)) (m : Timestamp) :
  col_min l = Some m -> In (Some m) l.
Proof.
  revert m. induction l as [|[x|] l IH]; simpl; intros m H.
  - discriminate.
  - destruct (col_min l) as [m'|] eqn:E.
    + injection H as <-. destruct (Z.min_spec x m') as [[_ ->]|[_ ->]]; auto.
    + injection H as <-. auto.
  - right. apply IH, H.
Qed.

Lemma col_min_le (l : list (option Timestamp)) (t : Timestamp) :
  In (Some t) l -> exists m, col_min l = Some m /\ m <= t.
Proof.
  induction l as [|[x|] l IH]; simpl; intros H.
  - destruct H.
  - destruct H as [H|H].
    + injection H as ->. destruct (col_min l) as [m'|]; eexists; split; eauto; lia.
    + destruct (IH H) as (m' & -> & Hm). eexists; split; eauto. lia.
  - destruct H as [H|H]; [discriminate|auto].
Qed.

Lemma col_max_None (l : list (option Timestamp)) :
  col_max l = None <-> forall t, ~ In (Some t) l.
Proof.
  induction l as [|[x|] l IH]; simpl.
  - split; [intros _ t []|reflexivity].
  - split.
    + destruct (col_max l); discriminate.
    + intros H. exfalso. apply (H x). left; reflexivity.
  - rewrite IH. split; intros H t.
    + intros [E|E]; [discriminate|exact (H t E)].
    + intros E. apply (H t). right; exact E.
Qed.

Lemma col_max_In (l : list (option Timestamp)) (m : Timestamp) :
  col_max l = Some m -> In (Some m) l.
Proof.
  revert m. induction l as [|[x|] l IH]; simpl; intros m H.
  - discriminate.
  - destruct (col_max l) as [m'|] eqn:E.
    + injection H as <-. destruct (Z.max_spec x m') as [[_ ->]|[_ ->]]; auto.
    + injection H as <-. auto.
  - right. apply IH, H.
Qed.

Lemma col_max_ge (l : list (option Timestamp)) (t : Timestamp) :
  In (Some t) l -> exists m, col_max l = Some m /\ t <= m.
Proof.
  induction l as [|[x|] l IH]; simpl; intros H.
  - destruct H.
  - destruct H as [H|H].
    + injection H as ->. destruct (col_max l) as [m'|]; eexists; split; eauto; lia.
    + destruct (IH H) as (m' & -> & Hm). eexists; split; eauto. lia.
  - destruct H as [H|H]; [discriminate|auto].
Qed.

Lemma col_min_earliest (p : row -> bool) (f : row -> option Timestamp) (df : DataFrame) :
  earliest (fun r => p r = true) f df (col_min (map f (filter p df))).
Proof.
  unfold earliest. destruct (col_min _) as [t|] eqn:E.
  - split.
    + apply col_min_In, in_map_iff in E. destruct E as (r & Hr & Hin).
      apply filter_In in Hin. exists r. tauto.
    + intros r t' Hin Hp Hf.
      destruct (col_min_le (map f (filter p df)) t') as (m & Hm & Hle).
      * rewrite <- Hf. apply in_map, filter_In. tauto.
      * congruence.
  - intros r Hin Hp. destruct (f r) as [t|] eqn:Hf; [|reflexivity].
    exfalso. apply (proj1 (col_min_None _) E t).
    rewrite <- Hf. apply in_map, filter_In. tauto.
Qed.

Lemma col_max_latest (p : row -> bool) (f : row -> option Timestamp) (df : DataFrame) :
  latest (fun r => p r = true) f df (col_max (map f (filter p df))).
Proof.
  unfold latest. destruct (col_max _) as [t|] eqn:E.
  - split.
    + apply col_max_In, in_map_iff in E. destruct E as (r & Hr & Hin).
      apply filter_In in Hin. exists r. tauto.
    + intros r t' Hin Hp Hf.
      destruct (col_max_ge (map f (filter p df)) t') as (m & Hm & Hle).
      * rewrite <- Hf. apply in_map, filter_In. tauto.
      * congruence.
  - intros r Hin Hp. destruct (f r) as [t|] eqn:Hf; [|reflexivity].
    exfalso. apply (proj1 (col_max_None _) E t).
    rewrite <- Hf. apply in_map, filter_In. tauto.
Qed.

Lemma filter_true {A : Type} (l : list A) : filter (fun _ => true) l = l.
Proof. induction l; simpl; congruence. Qed.

Lemma empty_nil {A : Type} (l : list A) : empty l = true <-> l = [].
Proof. destruct l; simpl; split; congruence. Qed.

(** ** Text comparisons *)

Lemma str_eq_spec (o : option string) (v : string) :
  str_eq o v = true <-> o = Some v.
Proof.
  destruct o as [s|]; simpl.
  - rewrite String.eqb_eq. split; congruence.
  - split; discriminate.
Qed.

Lemma is_professor_spec (cfg : config) (r : row) :
  is_professor cfg r = true <-> matches_authority cfg r.
Proof.
  unfold is_professor, matches_authority. rewrite str_eq_spec.
  destruct (User_Name r) as [n|]; simpl.
  - split.
    + intros H. exists n. split; congruence.
    + intros (n' & E & H). congruence.
  - split; [discriminate|]. intros (n' & E & _). discriminate.
Qed.

Lemma earliest_ext (P P' : row -> Prop) f df m :
  (forall r, P r <-> P' r) -> earliest P f df m -> earliest P' f df m.
Proof.
  intros H. unfold earliest. destruct m as [t|].
  - intros [(r & Hin & Hp & Hf) Hle]. split.
    + exists r. rewrite <- H. tauto.
    + intros r' t' Hin' Hp'. apply Hle; [assumption|]. apply H, Hp'.
  - intros Hn r Hin Hp. apply Hn; [assumption|]. apply H, Hp.
Qed.

Lemma latest_ext (P P' : row -> Prop) f df m :
  (forall r, P r <-> P' r) -> latest P f df m -> latest P' f df m.
Proof.
  intros H. unfold latest. destruct m as [t|].
  - intros [(r & Hin & Hp & Hf) Hle]. split.
    + exists r. rewrite <- H. tauto.
    + intros r' t' Hin' Hp'. apply Hle; [assumption|]. apply H, Hp'.
  - intros Hn r Hin Hp. apply Hn; [assumption|]. apply H, Hp.
Qed.



(** ** Loading *)

Lemma to_datetime_garbage (col : list time_cell) :
  (exists c, In c col /\ unparseable c) -> to_datetime col = Raise DateParseError.
Proof.
  induction col as [|c col IH]; intros (c' & Hin & s & ->).
  - destruct Hin.
  - destruct Hin as [->|Hin]; [reflexivity|].
    assert (E : to_datetime col = Raise DateParseError) by (apply IH; exists (TimeGarbage s); split; [assumption|exists s; reflexivity]).
    destruct c; simpl; rewrite ?E; reflexivity.
Qed.

Lemma to_datetime_clean (col : list time_cell) :
  (forall c, In c col -> ~ unparseable c) -> to_datetime col = Ok (map parsed_time col).
Proof.
  induction col as [|c col IH]; intros H; [reflexivity|].
  assert (E : to_datetime col = Ok (map parsed_time col))
    by (apply IH; intros c' Hin; apply H; right; assumption).
  destruct c as [t| |s]; simpl; rewrite ?E; try reflexivity.
  exfalso. apply (H (TimeGarbage s)); [left; reflexivity|exists s; reflexivity].
Qed.

Lemma to_datetime_Ok (col : list time_cell) (ts : list (option Timestamp)) :
  to_datetime col = Ok ts ->
  ts = map parsed_time col /\ forall c, In c col -> ~ unparseable c.
Proof.
  revert ts. induction col as [|c col IH]; simpl; intros ts H.
  - injection H as <-. split; [reflexivity|intros c []].
  - destruct c as [t| |s]; try discriminate;
      (destruct (to_datetime col) as [ts'|e]; simpl in H; [|discriminate];
       injection H as <-; destruct (IH ts' eq_refl) as [-> Hc]; split; [reflexivity|];
       intros c [<-|Hin]; [intros (s & Hs); discriminate|apply Hc, Hin]).
Qed.

Lemma assign_typed (csv : list raw_row) :
  assign csv (map parsed_time (map raw_Join_time csv))
    (map parsed_time (map raw_Leave_time csv))
    (to_numeric (map raw_Duration csv)) = map typed_row csv.
Proof.
  unfold to_numeric. induction csv as [|r csv IH]; simpl; [reflexivity|].
  rewrite IH. reflexivity.
Qed.

Lemma load_Ok (csv : list raw_row) (df : DataFrame) :
  load csv = Ok df ->
  df = map typed_row csv /\
  forall r, In r csv ->
    ~ unparseable (raw_Join_time r) /\ ~ unparseable (raw_Leave_time r).
Proof.
  unfold load. intros H.
  destruct (to_datetime (map raw_Join_time csv)) as [joins|e] eqn:Ej; [|discriminate].
  destruct (to_datetime (map raw_Leave_time csv)) as [leaves|e] eqn:El; [|discriminate].
  simpl in H. injection H as <-.
  apply to_datetime_Ok in Ej, El. destruct Ej as [-> Hj], El as [-> Hl].
  split; [apply assign_typed|].
  intros r Hin. split; [apply Hj|apply Hl]; apply in_map, Hin.
Qed.

Lemma load_clean (csv : list raw_row) :
  (forall r, In r csv ->
     ~ unparseable (raw_Join_time r) /\ ~ unparseable (raw_Leave_time r)) ->
  load csv = Ok (map typed_row csv).
Proof.
  intros H. unfold load.
  rewrite (to_datetime_clean (map raw_Join_time csv)).
  2:{ intros c Hc. apply in_map_iff in Hc. destruct Hc as (r & <- & Hin). apply H, Hin. }
  rewrite (to_datetime_clean (map raw_Leave_time csv)).
  2:{ intros c Hc. apply in_map_iff in Hc. destruct Hc as (r & <- & Hin). apply H, Hin. }
  unfold bind. rewrite assign_typed. reflexivity.
Qed.

Lemma load_garbage (csv : list raw_row) (r : raw_row) :
  In r csv ->
  unparseable (raw_Join_time r) \/ unparseable (raw_Leave_time r) ->
  load csv = Raise DateParseError.
Proof.
  intros Hin H. unfold load.
  destruct (to_datetime (map raw_Join_time csv)) as [joins|e] eqn:Ej.
  - destruct H as [H|H].
    + rewrite to_datetime_garbage in Ej; [discriminate|].
      exists (raw_Join_time r). split; [apply in_map, Hin|assumption].
    + simpl. rewrite to_datetime_garbage; [reflexivity|].
      exists (raw_Leave_time r). split; [apply in_map, Hin|assumption].
  - simpl. destruct e; try reflexivity;
      exfalso; clear - Ej; revert Ej;
      induction (map raw_Join_time csv) as [|c col IH]; simpl; try discriminate;
      destruct c; try discriminate; destruct (to_datetime col); simpl; try discriminate;
      intros E; apply IH; assumption.
Qed.

(** ** Groups *)

Lemma insert_key_perm (k : string) (ks : list string) :
  Permutation (insert_key k ks) (k :: ks).
Proof.
  induction ks as [|k' ks IH]; simpl.
  - apply Permutation_refl.
  - destruct (String.leb k k').
    + apply Permutation_refl.
    + eapply perm_trans; [apply perm_skip, IH|apply perm_swap].
Qed.

Lemma sort_keys_perm (ks : list string) : Permutation (sort_keys ks) ks.
Proof.
  induction ks as [|k ks IH]; simpl.
  - apply perm_nil.
  - eapply perm_trans; [apply insert_key_perm|apply perm_skip, IH].
Qed.

Lemma names_In (df : DataFrame) (k : string) :
  In k (names df) <-> exists r, In r df /\ User_Name r = Some k.
Proof.
  induction df as [|r df IH]; simpl.
  - split; [intros []|intros (r & [] & _)].
  - destruct (User_Name r) as [n|] eqn:E; simpl; rewrite IH; split.
    + intros [<-|(r' & Hin & H)]; [exists r; auto|exists r'; auto].
    + intros (r' & [<-|Hin] & H); [left; congruence|right; exists r'; auto].
    + intros (r' & Hin & H). exists r'; auto.
    + intros (r' & [<-|Hin] & H); [congruence|exists r'; auto].
Qed.

Lemma group_keys_In (df : DataFrame) (k : string) :
  In k (group_keys df) <-> exists r, In r df /\ User_Name r = Some k.
Proof.
  unfold group_keys. rewrite <- names_In, <- (nodup_In string_dec (names df) k).
  split; apply Permutation_in;
    [apply sort_keys_perm|apply Permutation_sym, sort_keys_perm].
Qed.

Lemma group_keys_NoDup (df : DataFrame) : NoDup (group_keys df).
Proof.
  unfold group_keys.
  eapply Permutation_NoDup; [apply Permutation_sym, sort_keys_perm|].
  apply NoDup_nodup.
Qed.

Lemma has_name_spec (k : string) (r : row) :
  has_name k r = true <-> User_Name r = Some k.
Proof. apply str_eq_spec. Qed.

Lemma get_group_In (df : DataFrame) (k : string) (r : row) :
  In r (get_group df k) <-> In r df /\ User_Name r = Some k.
Proof. unfold get_group. rewrite filter_In, has_name_spec. reflexivity. Qed.

Lemma get_group_nonempty (df : DataFrame) (k : string) :
  In k (group_keys df) -> (1 <= List.length (get_group df k))%nat.
Proof.
  intros H. apply group_keys_In in H. destruct H as (r & Hin & Hn).
  assert (Hg : In r (get_group df k)) by (apply get_group_In; auto).
  destruct (get_group df k); [destruct Hg|simpl; lia].
Qed.

Lemma summarize_In (cfg : config) (b : bounds) (studs : DataFrame) (s : summary_row) :
  In s (summarize cfg b studs) <->
  exists k, In k (group_keys studs) /\
            s = derive cfg b k (agg_student cfg (get_group studs k)).
Proof.
  unfold summarize, groupby. rewrite map_map, in_map_iff. simpl.
  split; intros (k & H1 & H2); exists k; auto.
Qed.

Lemma summarize_Names (cfg : config) (b : bounds) (studs : DataFrame) :
  map Name (summarize cfg b studs) = group_keys studs.
Proof.
  unfold summarize, groupby. rewrite !map_map. simpl. apply map_id.
Qed.

Lemma students_In (cfg : config) (df : DataFrame) (r : row) :
  In r (students cfg df) <-> In r df /\ is_student cfg r = true.
Proof. apply filter_In. Qed.

(** Rows without a name leave every group as it is. *)
Lemma names_unnamed (pre post : DataFrame) (r : row) :
  User_Name r = None -> names (pre ++ r :: post) = names (pre ++ post).
Proof.
  intros H. induction pre as [|x pre IH]; simpl.
  - rewrite H. reflexivity.
  - rewrite IH. reflexivity.
Qed.

Lemma get_group_unnamed (pre post : DataFrame) (r : row) (k : string) :
  User_Name r = None -> get_group (pre ++ r :: post) k = get_group (pre ++ post) k.
Proof.
  intros H. unfold get_group. rewrite !filter_app. simpl.
  unfold has_name at 2. rewrite H. reflexivity.
Qed.

(** ** Sums *)


Lemma col_sum_one_decimal (l : list (option Q)) :
  (forall d, In (Some d) l -> one_decimal d) -> one_decimal (col_sum l).
Proof.
  induction l as [|[d|] l IH]; simpl; intros H.
  - exists 0. reflexivity.
  - destruct (H d (or_introl eq_refl)) as (z1 & E1).
    destruct IH as (z2 & E2); [intros d' Hd; apply H; right; exact Hd|].
    exists (z1 + z2). rewrite E1, E2. unfold Qeq. simpl. lia.
  - apply IH. intros d Hd. apply H. right; exact Hd.
Qed.

Lemma sum_over_ext (keys : list string) (f g : string -> Q) :
  (forall k, In k keys -> (f k == g k)%Q) -> (sum_over keys f == sum_over keys g)%Q.
Proof.
  induction keys as [|k keys IH]; simpl; intros H; [reflexivity|].
  rewrite (H k (or_introl eq_refl)), IH; [reflexivity|].
  intros k' Hk. apply H. right; exact Hk.
Qed.

Lemma sum_over_plus (keys : list string) (f g : string -> Q) :
  (sum_over keys (fun k => f k + g k) == sum_over keys f + sum_over keys g)%Q.
Proof.
  induction keys as [|k keys IH]; simpl; [lra|]. rewrite IH. lra.
Qed.

Lemma sum_over_zero (keys : list string) : (sum_over keys (fun _ => 0) == 0)%Q.
Proof. induction keys as [|k keys IH]; simpl; [reflexivity|]. rewrite IH. lra. Qed.

(** A key that occurs once selects one term of a sum. *)
Lemma sum_over_select (keys : list string) (n : string) (d : Q) :
  NoDup keys -> In n keys ->
  (sum_over keys (fun k => if String.eqb n k then d else 0) == d)%Q.
Proof.
  induction keys as [|k keys IH]; simpl; intros Hnd Hin; [destruct Hin|].
  inversion Hnd as [|? ? Hk Hnd']; subst.
  destruct (String.eqb n k) eqn:E.
  - apply String.eqb_eq in E. subst k.
    rewrite (sum_over_ext keys _ (fun _ => 0%Q)).
    + rewrite sum_over_zero. lra.
    + intros k' Hk'. destruct (String.eqb n k') eqn:E'; [|reflexivity].
      apply String.eqb_eq in E'. subst k'. contradiction.
  - destruct Hin as [->|Hin]; [rewrite String.eqb_refl in E; discriminate|].
    rewrite (IH Hnd' Hin). lra.
Qed.

Lemma sum_over_groups (df : DataFrame) (keys : list string) :
  NoDup keys -> (forall n, In n (names df) -> In n keys) ->
  (sum_over keys (fun k => col_sum (map Duration (get_group df k)))
   == col_sum (map Duration (filter named df)))%Q.
Proof.
  intros Hnd. induction df as [|r df IH]; intros Hk.
  - simpl. apply sum_over_zero.
  - simpl in Hk.
    change (filter named (r :: df))
      with (if named r then r :: filter named df else filter named df).
    unfold named at 1.
    destruct (User_Name r) as [n|] eqn:En.
    + rewrite (sum_over_ext keys _
        (fun k => (if String.eqb n k then col_sum [Duration r] else 0)
                  + col_sum (map Duration (get_group df k)))%Q).
      * rewrite sum_over_plus, sum_over_select, IH; auto.
        -- simpl map. destruct (Duration r); simpl; lra.
        -- intros n' Hn'. apply Hk. right; exact Hn'.
        -- apply Hk. left; reflexivity.
      * intros k _. unfold get_group at 1. simpl. unfold has_name at 1.
        rewrite En. simpl. fold (get_group df k).
        destruct (String.eqb n k); simpl; destruct (Duration r); simpl; lra.
    + rewrite <- IH by (intros n' Hn'; apply Hk; exact Hn').
      apply sum_over_ext. intros k _. unfold get_group at 1. simpl.
      unfold has_name at 1. rewrite En. simpl. reflexivity.
Qed.

Lemma sum_totals_summarize (cfg : config) (b : bounds) (studs : DataFrame) :
  (sum_totals (summarize cfg b studs)
   == sum_over (group_keys studs)
        (fun k => round1 (col_sum (map Duration (get_group studs k)))))%Q.
Proof.
  unfold summarize, groupby. rewrite map_map. simpl.
  induction (group_keys studs) as [|k keys IH]; simpl; [reflexivity|].
  rewrite IH. reflexivity.
Qed.

(** ** The analysis and its stages *)

Lemma str_accessor_spec (df : DataFrame) :
  str_accessor df = Ok tt <-> text_names df.
Proof.
  unfold str_accessor, text_names. destruct df as [|x df]; cbn [empty orb].
  - split; auto.
  - destruct (existsb named (x :: df)) eqn:E.
    + split; [intros _|reflexivity]. right.
      apply existsb_exists in E. destruct E as (r & Hr & Hn).
      unfold named in Hn. destruct (User_Name r) as [n|] eqn:En; [|discriminate].
      exists r, n. auto.
    + split; [discriminate|]. intros [H|(r & n & Hr & Hn)]; [discriminate|].
      exfalso. assert (T : existsb named (x :: df) = true).
      { apply existsb_exists. exists r. split; [exact Hr|].
        unfold named. rewrite Hn. reflexivity. }
      congruence.
Qed.

Lemma str_accessor_Raise (df : DataFrame) :
  ~ text_names df -> str_accessor df = Raise AttributeError.
Proof.
  intros H. unfold str_accessor.
  destruct (orb (empty df) (existsb named df)) eqn:E; [|reflexivity].
  exfalso. apply H, str_accessor_spec. unfold str_accessor. rewrite E. reflexivity.
Qed.

Lemma class_window_Ok (cfg : config) (df : DataFrame) :
  text_names df -> class_window cfg df = Ok (class_bounds cfg df).
Proof.
  intros H. unfold class_window. rewrite (proj2 (str_accessor_spec df) H). reflexivity.
Qed.

Lemma class_window_inv (cfg : config) (df : DataFrame) (b : bounds) :
  class_window cfg df = Ok b -> text_names df /\ b = class_bounds cfg df.
Proof.
  unfold class_window. destruct (str_accessor df) as [[]|e] eqn:E; [|discriminate].
  cbn [bind]. intros H. injection H as <-. split; [apply str_accessor_spec, E|reflexivity].
Qed.

Lemma students_of_Ok (cfg : config) (df : DataFrame) :
  text_names df -> students_of cfg df = Ok (students cfg df).
Proof.
  intros H. unfold students_of. rewrite (proj2 (str_accessor_spec df) H). reflexivity.
Qed.

(** What a successful analysis holds, in terms of the stages. *)
Lemma analyze_file_Ok (cfg : config) (csv : list raw_row) (out : analysis) :
  analyze_file cfg csv = Ok out ->
  let df := map typed_row csv in
  load csv = Ok df /\
  text_names df /\
  window out = class_bounds cfg df /\
  duration_min out = class_duration (window out) /\
  summary out = summarize cfg (window out) (students cfg df) /\
  summary out <> [] /\
  (exists cs, class_start (window out) = Some cs) /\
  (exists ce, class_end (window out) = Some ce).
Proof.
  intros H df. unfold analyze_file in H.
  destruct (load csv) as [df'|e] eqn:El; [|discriminate].
  destruct (load_Ok csv df' El) as [-> _]. fold df in H, El |- *.
  cbn [bind] in H. unfold analyze_frame in H.
  destruct (class_window cfg df) as [b|e] eqn:Ew; [|discriminate].
  destruct (class_window_inv cfg df b Ew) as [Ht ->].
  cbn [bind] in H. rewrite (students_of_Ok cfg df Ht) in H. cbn [bind] in H.
  destruct (class_start (class_bounds cfg df)) as [cs|] eqn:Es; [|discriminate].
  destruct (empty (groupby (students cfg df))) eqn:Eg; [discriminate|].
  destruct (class_end (class_bounds cfg df)) as [ce|] eqn:Ee; [|discriminate].
  injection H as <-. cbn [window duration_min summary].
  split; [reflexivity|]. split; [exact Ht|]. split; [reflexivity|].
  split; [reflexivity|]. split; [reflexivity|]. split; [|split].
  - intros E. unfold summarize in E.
    destruct (groupby (students cfg df)); simpl in *; discriminate.
  - exists cs. exact Es.
  - exists ce. exact Ee.
Qed.

(** ** Status *)

Lemma fge_spec (x : fnum) (t : Q) : fge x t = true <-> Fge x t.
Proof.
  destruct x; simpl; try tauto; try (split; [discriminate|tauto]).
  apply Qle_bool_iff.
Qed.

Lemma fgt_spec (x : fnum) (t : Q) : fgt x t = true <-> Fgt x t.
Proof.
  destruct x; simpl; try tauto; try (split; [discriminate|tauto]).
  rewrite negb_true_iff. split.
  - intros H. apply Qnot_le_lt. intros L. apply Qle_bool_iff in L. congruence.
  - intros H. destruct (Qle_bool q t) eqn:E; [|reflexivity].
    apply Qle_bool_iff in E. exfalso. apply (Qlt_not_le _ _ H E).
Qed.

Lemma derive_Status (cfg : config) (b : bounds) (k : string) (a : agg) :
  Status (derive cfg b k a) =
  if Ghost_Only (derive cfg b k a) then Ghost_Join
  else if fge (Pct_Attended (derive cfg b k a)) (min_attendance_pct cfg)
       then Present else Absent_Brief.
Proof. reflexivity. Qed.

Lemma derive_Ghost_Only (cfg : config) (b : bounds) (k : string) (a : agg) :
  Ghost_Only (derive cfg b k a) = true <->
  (Total_Minutes a <= ghost_join_max_min cfg)%Q.
Proof. simpl. apply Qle_bool_iff. Qed.

(** C1. Every row of the summary gets its status by fixed precedence:
    Ghost Join whenever the total minutes are at most [ghost_join_max_min],
    whatever the percentage; otherwise Present when the percentage
    attended reaches [min_attendance_pct]; otherwise Absent/Brief.  A total
    of 1 minute under a threshold of 2 is a Ghost Join. *)
Theorem status_precedence (cfg : config) (b : bounds) (studs : DataFrame)
    (s : summary_row) :
  In s (summarize cfg b studs) ->
  ((Total_Minutes (Agg s) <= ghost_join_max_min cfg)%Q ->
     Status s = Ghost_Join) /\
  (~ (Total_Minutes (Agg s) <= ghost_join_max_min cfg)%Q ->
     Fge (Pct_Attended s) (min_attendance_pct cfg) -> Status s = Present) /\
  (~ (Total_Minutes (Agg s) <= ghost_join_max_min cfg)%Q ->
     ~ Fge (Pct_Attended s) (min_attendance_pct cfg) ->
     Status s = Absent_Brief) /\
  ((Total_Minutes (Agg s) == 1)%Q -> (ghost_join_max_min cfg == 2)%Q ->
     Status s = Ghost_Join).
Proof.
  intros Hin. apply summarize_In in Hin. destruct Hin as (k & _ & ->).
  set (a := agg_student cfg (get_group studs k)).
  rewrite derive_Status.
  pose proof (derive_Ghost_Only cfg b k a) as G.
  pose proof (fge_spec (Pct_Attended (derive cfg b k a)) (min_attendance_pct cfg)) as P.
  change (Agg (derive cfg b k a)) with a.
  destruct (Ghost_Only (derive cfg b k a)).
  - repeat split; intros; try reflexivity; exfalso; tauto.
  - assert (N : ~ (Total_Minutes a <= ghost_join_max_min cfg)%Q)
      by (intros L; apply G in L; discriminate).
    destruct (fge _ _).
    + repeat split; intros; try reflexivity; try tauto.
      exfalso. apply N. lra.
    + repeat split; intros; try reflexivity.
      * tauto.
      * exfalso. assert (D : false = true) by tauto. discriminate.
      * exfalso. apply N. lra.
Qed.

(** ** Class window *)

(** The bounds of lines 86-92, case by case. *)
Lemma class_bounds_cases (cfg : config) (df : DataFrame) :
  let b := class_bounds cfg df in
  ((exists r, In r df /\ matches_authority cfg r) ->
     earliest (matches_authority cfg) Join_time df (class_start b) /\
     latest (matches_authority cfg) Leave_time df (class_end b) /\
     printed b = []) /\
  (~ (exists r, In r df /\ matches_authority cfg r) ->
     earliest (fun _ => True) Join_time df (class_start b) /\
     latest (fun _ => True) Leave_time df (class_end b) /\
     printed b = [ProfessorNotFound (professor cfg)]).
Proof.
  intros b. subst b. unfold class_bounds.
  destruct (empty (prof_rows cfg df)) eqn:E; simpl.
  - apply empty_nil in E. split.
    + intros (r & Hin & Hm). exfalso.
      assert (H : In r (prof_rows cfg df))
        by (apply filter_In; split; [assumption|apply is_professor_spec, Hm]).
      rewrite E in H. destruct H.
    + intros _. split; [|split; [|reflexivity]].
      * pose proof (col_min_earliest (fun _ => true) Join_time df) as H.
        rewrite filter_true in H.
        eapply earliest_ext; [|exact H]. intros r; simpl; tauto.
      * pose proof (col_max_latest (fun _ => true) Leave_time df) as H.
        rewrite filter_true in H.
        eapply latest_ext; [|exact H]. intros r; simpl; tauto.
  - split.
    + intros _. split; [|split; [|reflexivity]].
      * eapply earliest_ext; [|apply col_min_earliest]. apply is_professor_spec.
      * eapply latest_ext; [|apply col_max_latest]. apply is_professor_spec.
    + intros H. exfalso. apply H.
      destruct (prof_rows cfg df) as [|r l] eqn:Hp; [discriminate|].
      exists r. assert (Hin : In r (prof_rows cfg df)) by (rewrite Hp; left; reflexivity).
      apply filter_In in Hin. split; [tauto|]. apply is_professor_spec; tauto.
Qed.

(** C2, as the code has it. On a frame whose name column holds text (it
    has no row, or a row with a name) the class window is resolved: when
    some row matches the authority (names compared after lower-casing),
    the start is the earliest join time and the end the latest leave time
    among the matching rows and nothing is printed; otherwise they are the
    earliest join and latest leave over all rows and the
    professor-not-found warning is printed. *)
Theorem class_window_resolution (cfg : config) (df : DataFrame) :
  text_names df ->
  exists b, class_window cfg df = Ok b /\
    ((exists r, In r df /\ matches_authority cfg r) ->
       earliest (matches_authority cfg) Join_time df (class_start b) /\
       latest (matches_authority cfg) Leave_time df (class_end b) /\
       printed b = []) /\
    (~ (exists r, In r df /\ matches_authority cfg r) ->
       earliest (fun _ => True) Join_time df (class_start b) /\
       latest (fun _ => True) Leave_time df (class_end b) /\
       printed b = [ProfessorNotFound (professor cfg)]).
Proof.
  intros H. exists (class_bounds cfg df).
  split; [apply class_window_Ok, H|apply class_bounds_cases].
Qed.

(** ** Session counts *)

Lemma longer_than_spec (ghost : Q) (r : row) :
  longer_than ghost r = true <-> exists d, Duration r = Some d /\ (ghost < d)%Q.
Proof.
  unfold longer_than. destruct (Duration r) as [d|].
  - rewrite negb_true_iff. split.
    + intros H. exists d. split; [reflexivity|].
      apply Qnot_le_lt. intros L. apply Qle_bool_iff in L. congruence.
    + intros (d' & E & H). injection E as <-.
      destruct (Qle_bool d ghost) eqn:E; [|reflexivity].
      apply Qle_bool_iff in E. exfalso. apply (Qlt_not_le _ _ H E).
  - split; [discriminate|]. intros (d & E & _). discriminate.
Qed.

(** C8. Every row of the summary counts at least one session, and its
    real sessions, the rows of its group whose duration is strictly above
    [ghost_join_max_min], are no more than its sessions. *)
Theorem session_counts (cfg : config) (b : bounds) (studs : DataFrame)
    (s : summary_row) :
  In s (summarize cfg b studs) ->
  let grp := get_group studs (Name s) in
  (forall r, In r grp <-> In r studs /\ User_Name r = Some (Name s)) /\
  Raw_Sessions (Agg s) = List.length grp /\
  Real_Sessions (Agg s)
    = List.length (filter (longer_than (ghost_join_max_min cfg)) grp) /\
  (forall r, longer_than (ghost_join_max_min cfg) r = true <->
             exists d, Duration r = Some d /\ (ghost_join_max_min cfg < d)%Q) /\
  (1 <= Raw_Sessions (Agg s))%nat /\
  (Real_Sessions (Agg s) <= Raw_Sessions (Agg s))%nat.
Proof.
  intros Hin grp. apply summarize_In in Hin. destruct Hin as (k & Hk & ->).
  subst grp. simpl.
  split; [intros r; apply get_group_In|].
  split; [reflexivity|]. split; [reflexivity|].
  split; [intros r; apply longer_than_spec|].
  split; [apply get_group_nonempty, Hk|apply filter_length_le].
Qed.

(** ** Rows without a name *)

Lemma is_student_unnamed (cfg : config) (r : row) :
  User_Name r = None -> is_student cfg r = true.
Proof. intros H. unfold is_student. rewrite H. reflexivity. Qed.

Lemma students_app (cfg : config) (pre post : DataFrame) (r : row) :
  is_student cfg r = true ->
  students cfg (pre ++ r :: post) = students cfg pre ++ r :: students cfg post.
Proof.
  intros H. unfold students. rewrite filter_app. simpl. rewrite H. reflexivity.
Qed.

Lemma summarize_unnamed (cfg : config) (b : bounds) (pre post : DataFrame) (r : row) :
  User_Name r = None ->
  summarize cfg b (pre ++ r :: post) = summarize cfg b (pre ++ post).
Proof.
  intros H. unfold summarize, groupby, group_keys.
  rewrite (names_unnamed pre post r H), !map_map. simpl.
  apply map_ext. intros k. rewrite (get_group_unnamed pre post r k H). reflexivity.
Qed.

(** A row without a name, stage by stage. *)
Lemma unnamed_row_stages (cfg : config) (b : bounds)
    (pre post : DataFrame) (r : row) :
  User_Name r = None ->
  let df := pre ++ r :: post in
  In r (students cfg df) /\
  (forall k, ~ In r (get_group (students cfg df) k)) /\
  summarize cfg b (students cfg df) = summarize cfg b (students cfg (pre ++ post)) /\
  (~ (exists r', In r' df /\ matches_authority cfg r') ->
   (forall t, Join_time r = Some t ->
      exists m, class_start (class_bounds cfg df) = Some m /\ m <= t) /\
   (forall t, Leave_time r = Some t ->
      exists m, class_end (class_bounds cfg df) = Some m /\ t <= m)).
Proof.
  intros H df. pose proof (is_student_unnamed cfg r H) as Hs.
  assert (Hin : In r df) by (apply in_elt).
  split; [apply students_In; auto|].
  split.
  { intros k Hk. apply get_group_In in Hk. destruct Hk as [_ Hk]. congruence. }
  split.
  { subst df. rewrite (students_app cfg pre post r Hs).
    rewrite summarize_unnamed by exact H.
    unfold students. rewrite filter_app. reflexivity. }
  intros Hno.
  assert (E : empty (prof_rows cfg df) = true).
  { destruct (prof_rows cfg df) as [|x l] eqn:Hp; [reflexivity|].
    exfalso. apply Hno. exists x.
    assert (Hx : In x (prof_rows cfg df)) by (rewrite Hp; left; reflexivity).
    apply filter_In in Hx. split; [tauto|apply is_professor_spec; tauto]. }
  unfold class_bounds. rewrite E. simpl. split; intros t Ht.
  - apply col_min_le. rewrite <- Ht. apply in_map, Hin.
  - apply col_max_ge. rewrite <- Ht. apply in_map, Hin.
Qed.

(** C10, as the code has it. In a frame whose name column holds text, a
    row without a participant name passes the exclusion filter, is in no
    group and so in no row of the summary (the summary is the one of the
    frame without it), yet when no row matches the professor its join and
    leave times are among those that bound the class window. *)
Theorem unnamed_row_dropped (cfg : config) (b : bounds)
    (pre post : DataFrame) (r : row) :
  User_Name r = None ->
  let df := pre ++ r :: post in
  text_names df ->
  students_of cfg df = Ok (students cfg df) /\
  In r (students cfg df) /\
  (forall k, ~ In r (get_group (students cfg df) k)) /\
  summarize cfg b (students cfg df) = summarize cfg b (students cfg (pre ++ post)) /\
  class_window cfg df = Ok (class_bounds cfg df) /\
  (~ (exists r', In r' df /\ matches_authority cfg r') ->
   (forall t, Join_time r = Some t ->
      exists m, class_start (class_bounds cfg df) = Some m /\ m <= t) /\
   (forall t, Leave_time r = Some t ->
      exists m, class_end (class_bounds cfg df) = Some m /\ t <= m)).
Proof.
  intros H df Ht.
  destruct (unnamed_row_stages cfg b pre post r H) as (H1 & H2 & H3 & H4).
  split; [apply students_of_Ok, Ht|]. split; [exact H1|]. split; [exact H2|].
  split; [exact H3|]. split; [apply class_window_Ok, Ht|exact H4].
Qed.

(** ** Grouping *)

(** The rows of the students' frame that [groupby] puts in one group. *)
Lemma same_group_iff (studs : DataFrame) (r1 r2 : row) (n1 n2 : string) :
  In r1 studs -> In r2 studs ->
  User_Name r1 = Some n1 -> User_Name r2 = Some n2 ->
  ((exists k, In r1 (get_group studs k) /\ In r2 (get_group studs k)) <-> n1 = n2).
Proof.
  intros I1 I2 E1 E2. split.
  - intros (k & H1 & H2). apply get_group_In in H1, H2. destruct H1, H2. congruence.
  - intros <-. exists n1. split; apply get_group_In; auto.
Qed.

(** C5, as the code has it. Students are grouped by their exact name,
    with its case and its spaces: two named rows are in one group exactly
    when their names are equal, the summary has one row per distinct name
    among the rows kept, and that row shows this very name. *)
Theorem grouping_by_exact_name (cfg : config) (b : bounds) (df : DataFrame) :
  let studs := students cfg df in
  NoDup (map Name (summarize cfg b studs)) /\
  (forall r n, In r studs -> User_Name r = Some n ->
     exists s, In s (summarize cfg b studs) /\ Name s = n /\
               In r (get_group studs (Name s))) /\
  (forall s, In s (summarize cfg b studs) ->
     exists r, In r studs /\ User_Name r = Some (Name s)) /\
  (forall r1 r2 n1 n2, In r1 studs -> In r2 studs ->
     User_Name r1 = Some n1 -> User_Name r2 = Some n2 ->
     ((exists k, In r1 (get_group studs k) /\ In r2 (get_group studs k))
      <-> n1 = n2)).
Proof.
  intros studs. split; [rewrite summarize_Names; apply group_keys_NoDup|].
  split.
  { intros r n Hin Hn.
    exists (derive cfg b n (agg_student cfg (get_group studs n))).
    split; [|split; [reflexivity|apply get_group_In; auto]].
    apply summarize_In. exists n. split; [|reflexivity].
    apply group_keys_In. exists r; auto. }
  split.
  { intros s Hs. apply summarize_In in Hs. destruct Hs as (k & Hk & ->).
    apply group_keys_In in Hk. exact Hk. }
  apply same_group_iff.
Qed.

(** ** Conservation of minutes *)

(** Totals that need no rounding add up to the durations. *)
Lemma sum_totals_unrounded (cfg : config) (b : bounds) (df : DataFrame) :
  (forall r d, In r (students cfg df) -> Duration r = Some d -> one_decimal d) ->
  (sum_totals (summarize cfg b (students cfg df))
   == col_sum (map Duration (filter named (students cfg df))))%Q.
Proof.
  intros H. set (studs := students cfg df) in *.
  rewrite sum_totals_summarize.
  rewrite (sum_over_ext _ _ (fun k => col_sum (map Duration (get_group studs k)))).
  - apply sum_over_groups; [apply group_keys_NoDup|].
    intros n Hn. apply group_keys_In, names_In, Hn.
  - intros k _.
    destruct (col_sum_one_decimal (map Duration (get_group studs k))) as (z & E).
    + intros d Hd. apply in_map_iff in Hd. destruct Hd as (r & Hr & Hin).
      apply get_group_In in Hin. apply (H r d); tauto.
    + apply (round1_exact _ z E).
Qed.

(** C7, as the code has it. Each total is the sum of the durations of a
    group rounded to one decimal, so when the durations of the rows kept
    are whole minutes (of a size that [float64] sums exactly), the totals
    of the summary add up to the durations (missing ones counting 0) of
    the rows kept that carry a name. *)
Theorem conservation_whole_minutes (cfg : config) (b : bounds) (df : DataFrame) :
  whole_minutes (students cfg df) ->
  (sum_totals (summarize cfg b (students cfg df))
   == col_sum (map Duration (filter named (students cfg df))))%Q.
Proof.
  intros [H _]. apply sum_totals_unrounded.
  intros r d Hr Hd. destruct (H r d Hr Hd) as (z & E).
  exists (z * 10). rewrite E. unfold Qeq, inject_Z. cbn [Qnum Qden]. lia.
Qed.

(** ** Rows without a numeric duration *)




(** ** Lateness and early leave *)

Lemma minutes_nonpos (td : Z) : td <= 0 -> (total_seconds td / 60 <= 0)%Q.
Proof.
  intros H. apply Qle_shift_div_r; [reflexivity|].
  unfold total_seconds, Qle. cbn [Qnum Qden Qmult]. lia.
Qed.

Lemma clip0_max (q : Q) : ((if Qle_bool q 0 then 0 else q) == Qmax 0 q)%Q.
Proof.
  destruct (Qle_bool q 0) eqn:E.
  - apply Qle_bool_iff in E. symmetry. apply Q.max_l. exact E.
  - symmetry. apply Q.max_r. apply Qlt_le_weak, Qnot_le_lt.
    intros L. apply Qle_bool_iff in L. congruence.
Qed.

(** C9, as the code has it. The minutes late are the minutes from the
    class start to the first join, rounded to one decimal and then raised
    to 0 when negative, and alike the minutes of early leave from the last
    leave to the class end; a student who joins no later than the class
    start is 0 minutes late; the two flags are the strict comparisons of
    these rounded minutes with their thresholds. *)
Theorem lateness_rounded (cfg : config) (b : bounds) (studs : DataFrame)
    (s : summary_row) (cs ce : Timestamp) :
  In s (summarize cfg b studs) ->
  class_start b = Some cs -> class_end b = Some ce ->
  (forall fj, First_Join (Agg s) = Some fj ->
     exists q, Late_Join_Min s = Fin q /\
               (q == Qmax 0 (round1 (total_seconds (fj - cs) / 60)))%Q /\
               (fj <= cs -> (q == 0)%Q)) /\
  (forall ll, Last_Leave (Agg s) = Some ll ->
     exists q, Left_Early_Min s = Fin q /\
               (q == Qmax 0 (round1 (total_seconds (ce - ll) / 60)))%Q) /\
  (Is_Late s = true <-> Fgt (Late_Join_Min s) (late_threshold_min cfg)) /\
  (Left_Early s = true <-> Fgt (Left_Early_Min s) (early_leave_threshold_min cfg)).
Proof.
  intros Hin Hs He. apply summarize_In in Hin. destruct Hin as (k & _ & ->).
  set (a := agg_student cfg (get_group studs k)).
  unfold derive.
  cbn [Agg Late_Join_Min Left_Early_Min Is_Late Left_Early].
  rewrite Hs, He.
  split; [|split; [|split; apply fgt_spec]].
  - intros fj ->. cbn [minutes_between fround1 fclip0].
    eexists. split; [reflexivity|]. split; [apply clip0_max|].
    intros Hle.
    assert (R : (round1 (total_seconds (fj - cs) / 60) <= 0)%Q)
      by (apply round1_nonpos, minutes_nonpos; lia).
    apply Qle_bool_iff in R. rewrite R. reflexivity.
  - intros ll ->. cbn [minutes_between fround1 fclip0].
    eexists. split; [reflexivity|apply clip0_max].
Qed.

(** ** Degenerate class window *)

Lemma derive_Pct (cfg : config) (b : bounds) (k : string) (a : agg) :
  Pct_Attended (derive cfg b k a)
  = fround1 (fmul100 (fdiv (Total_Minutes a) (class_duration b))).
Proof. reflexivity. Qed.

(** C3, as the code has it. Nothing guards a class window of no or of
    negative length, and nothing is raised: with a duration of 0 the
    percentage is NaN for a total of 0 minutes and plus or minus infinity
    for a positive or negative total; with a negative duration the
    percentage of a total that is not negative is never positive: it is
    at most 0, or minus infinity. *)
Theorem degenerate_window_unguarded (cfg : config) (b : bounds)
    (studs : DataFrame) (s : summary_row) (d : Q) :
  In s (summarize cfg b studs) ->
  class_duration b = Fin d -> (d <= 0)%Q ->
  ((d == 0)%Q ->
     ((Total_Minutes (Agg s) == 0)%Q -> Pct_Attended s = NaN) /\
     ((0 < Total_Minutes (Agg s))%Q -> Pct_Attended s = PInf) /\
     ((Total_Minutes (Agg s) < 0)%Q -> Pct_Attended s = NInf)) /\
  ((d < 0)%Q -> (0 <= Total_Minutes (Agg s))%Q -> Fle (Pct_Attended s) 0).
Proof.
  intros Hin Hd Hle. apply summarize_In in Hin. destruct Hin as (k & _ & ->).
  set (a := agg_student cfg (get_group studs k)).
  rewrite derive_Pct, Hd. change (Agg (derive cfg b k a)) with a.
  set (t := Total_Minutes a). unfold fdiv.
  split.
  - intros Hz. apply Qeq_bool_iff in Hz. rewrite Hz.
    split; [|split]; intros Ht.
    + rewrite (proj1 (Qeq_alt t 0) Ht). reflexivity.
    + rewrite (proj1 (Qgt_alt t 0) Ht). reflexivity.
    + rewrite (proj1 (Qlt_alt t 0) Ht). reflexivity.
  - intros Hn Ht.
    assert (Hz : Qeq_bool d 0 = false).
    { destruct (Qeq_bool d 0) eqn:E; [|reflexivity].
      apply Qeq_bool_iff in E. lra. }
    rewrite Hz. cbn [fmul100 fround1 Fle].
    apply round1_nonpos.
    assert (E : (t / d == - (t / - d))%Q) by (field; lra).
    assert (P : (0 <= t / - d)%Q) by (apply Qle_shift_div_l; lra).
    lra.
Qed.

(** ** Unparseable timestamps *)

(** C4, as the code has it. A join or leave cell that cannot be read as
    a date makes the conversion of its column raise: the frame is not
    loaded and the analysis of the file ends with that error, whatever the
    other rows are. *)
Theorem unparseable_timestamp_aborts (cfg : config) (csv : list raw_row)
    (r : raw_row) :
  In r csv ->
  unparseable (raw_Join_time r) \/ unparseable (raw_Leave_time r) ->
  load csv = Raise DateParseError /\
  analyze_file cfg csv = Raise DateParseError.
Proof.
  intros Hin Hbad. pose proof (load_garbage csv r Hin Hbad) as E.
  split; [exact E|]. unfold analyze_file. rewrite E. reflexivity.
Qed.

(** * Further properties *)

(** ** Rounding error *)

Lemma round_half_even_near (q : Q) :
  (q - (1 # 2) <= inject_Z (round_half_even q) <= q + (1 # 2))%Q.
Proof.
  destruct q as [n d]. unfold round_half_even. cbn [Qnum Qden].
  pose proof (Z.div_mod n (Zpos d) ltac:(lia)) as E.
  pose proof (Z.mod_pos_bound n (Zpos d) ltac:(lia)) as B.
  set (f := n / Zpos d) in *. set (r := n mod Zpos d) in *.
  assert (K : forall z : Z,
             2 * n - Zpos d <= 2 * Zpos d * z <= 2 * n + Zpos d ->
             ((n # d) - (1 # 2) <= inject_Z z <= (n # d) + (1 # 2))%Q).
  { intros z Hz. unfold Qle, Qminus, Qplus, Qopp, inject_Z. cbn [Qnum Qden].
    rewrite !Pos2Z.inj_mul. nia. }
  apply K.
  destruct (Z.compare_spec (2 * r) (Zpos d)) as [C|C|C].
  - destruct (Z.even f); nia.
  - nia.
  - nia.
Qed.

Lemma round1_near (q : Q) : (q - (1 # 20) <= round1 q <= q + (1 # 20))%Q.
Proof.
  pose proof (round_half_even_near (q * 10)) as H.
  assert (E : (round1 q == inject_Z (round_half_even (q * 10)) / 10)%Q).
  { unfold round1. generalize (round_half_even (q * 10)). intros z.
    unfold Qeq, Qdiv, Qmult, Qinv, inject_Z. cbn [Qnum Qden]. simpl. lia. }
  rewrite E.
  split.
  - apply Qle_shift_div_l; lra.
  - apply Qle_shift_div_r; lra.
Qed.

(** ** Order of the keys *)

Lemma string_compare_trans (a b c : string) :
  String.compare a b <> Gt -> String.compare b c <> Gt -> String.compare a c <> Gt.
Proof.
  revert b c. induction a as [|x a IH]; intros [|y b] [|z c]; simpl; try congruence.
  unfold Ascii.compare.
  destruct (N.compare_spec (N_of_ascii x) (N_of_ascii y)) as [E1|L1|G1];
    destruct (N.compare_spec (N_of_ascii y) (N_of_ascii z)) as [E2|L2|G2];
    destruct (N.compare_spec (N_of_ascii x) (N_of_ascii z)) as [E3|L3|G3];
    try congruence; try lia; try (intros; apply (IH b c); assumption).
Qed.

Lemma leb_trans (a b c : string) :
  String.leb a b = true -> String.leb b c = true -> String.leb a c = true.
Proof.
  unfold String.leb. intros H1 H2.
  pose proof (string_compare_trans a b c) as T.
  destruct (String.compare a b); destruct (String.compare b c);
    destruct (String.compare a c); try reflexivity; try discriminate;
    exfalso; apply T; congruence.
Qed.

Lemma insert_key_sorted (k : string) (ks : list string) :
  Sorted key_le ks -> Sorted key_le (insert_key k ks).
Proof.
  induction ks as [|k' ks IH]; simpl; intros H.
  - repeat constructor.
  - destruct (String.leb k k') eqn:E.
    + constructor; [exact H|]. constructor. exact E.
    + inversion H as [|? ? Hs Hh]; subst.
      assert (L : key_le k' k).
      { destruct (String.leb_total k k') as [T|T]; [congruence|exact T]. }
      constructor; [apply IH, Hs|].
      destruct ks as [|k'' ks]; simpl.
      * constructor. exact L.
      * destruct (String.leb k k''); constructor; [exact L|].
        inversion Hh; assumption.
Qed.

Lemma sort_keys_sorted (ks : list string) : Sorted key_le (sort_keys ks).
Proof.
  induction ks as [|k ks IH]; simpl; [constructor|].
  apply insert_key_sorted, IH.
Qed.

Lemma sorted_strongly (ks : list string) :
  Sorted key_le ks -> StronglySorted key_le ks.
Proof.
  apply Sorted_StronglySorted. intros a b c. apply leb_trans.
Qed.

(** Two sorted lists without duplicates that hold the same keys are equal. *)
Lemma sorted_unique (l1 l2 : list string) :
  StronglySorted key_le l1 -> StronglySorted key_le l2 ->
  NoDup l1 -> NoDup l2 -> (forall k, In k l1 <-> In k l2) -> l1 = l2.
Proof.
  revert l2. induction l1 as [|a l1 IH]; intros [|b l2] S1 S2 N1 N2 H.
  - reflexivity.
  - exfalso. apply (proj2 (H b)). left; reflexivity.
  - exfalso. apply (proj1 (H a)). left; reflexivity.
  - inversion S1 as [|? ? S1' F1]; inversion S2 as [|? ? S2' F2]; subst.
    inversion N1 as [|? ? Na N1']; inversion N2 as [|? ? Nb N2']; subst.
    rewrite Forall_forall in F1, F2.
    assert (E : a = b).
    { destruct (proj1 (H a) (or_introl eq_refl)) as [E|Ha]; [congruence|].
      destruct (proj2 (H b) (or_introl eq_refl)) as [E|Hb]; [congruence|].
      apply String.leb_antisym; [apply F1, Hb|apply F2, Ha]. }
    subst b. f_equal. apply IH; auto.
    intros k. split; intros Hk.
    + destruct (proj1 (H k) (or_intror Hk)) as [E|Hk']; [subst; contradiction|exact Hk'].
    + destruct (proj2 (H k) (or_intror Hk)) as [E|Hk']; [subst; contradiction|exact Hk'].
Qed.

Lemma group_keys_sorted (df : DataFrame) : StronglySorted key_le (group_keys df).
Proof. apply sorted_strongly, sort_keys_sorted. Qed.

Lemma group_keys_ext (df df' : DataFrame) :
  (forall r, In r df <-> In r df') -> group_keys df = group_keys df'.
Proof.
  intros H. apply sorted_unique; try apply group_keys_sorted; try apply group_keys_NoDup.
  intros k. rewrite !group_keys_In. split; intros (r & Hin & Hn); exists r; split; auto; apply H, Hin.
Qed.

(** ** Order of the rows *)

Lemma round1_eq (p q : Q) : (p == q)%Q -> round1 p = round1 q.
Proof.
  intros E. unfold round1. f_equal. apply round_half_even_comp.
  rewrite E. reflexivity.
Qed.

Lemma filter_perm {A : Type} (f : A -> bool) (l l' : list A) :
  Permutation l l' -> Permutation (filter f l) (filter f l').
Proof.
  induction 1 as [|x l l' _ IH|x y l|l l' l'' _ IH1 _ IH2]; simpl.
  - constructor.
  - destruct (f x); [constructor|]; exact IH.
  - destruct (f x), (f y); try apply Permutation_refl; apply perm_swap.
  - eapply perm_trans; eassumption.
Qed.

Lemma col_sum_perm (l l' : list (option Q)) :
  Permutation l l' -> (col_sum l == col_sum l')%Q.
Proof.
  induction 1 as [|x l l' _ IH|x y l|l l' l'' _ IH1 _ IH2]; simpl.
  - reflexivity.
  - destruct x; rewrite IH; reflexivity.
  - destruct x, y; lra.
  - rewrite IH1. exact IH2.
Qed.

Lemma col_min_ext (l l' : list (option Timestamp)) :
  (forall x, In x l <-> In x l') -> col_min l = col_min l'.
Proof.
  intros H.
  destruct (col_min l) as [m|] eqn:E; destruct (col_min l') as [m'|] eqn:E'.
  - f_equal.
    destruct (col_min_le l' m) as (a & Ha & La); [apply H, col_min_In, E|].
    destruct (col_min_le l m') as (c & Hc & Lc); [apply H, col_min_In, E'|].
    rewrite E' in Ha. rewrite E in Hc. injection Ha as <-. injection Hc as <-. lia.
  - exfalso. apply (proj1 (col_min_None l') E' m), H, col_min_In, E.
  - exfalso. apply (proj1 (col_min_None l) E m'), H, col_min_In, E'.
  - reflexivity.
Qed.

Lemma col_max_ext (l l' : list (option Timestamp)) :
  (forall x, In x l <-> In x l') -> col_max l = col_max l'.
Proof.
  intros H.
  destruct (col_max l) as [m|] eqn:E; destruct (col_max l') as [m'|] eqn:E'.
  - f_equal.
    destruct (col_max_ge l' m) as (a & Ha & La); [apply H, col_max_In, E|].
    destruct (col_max_ge l m') as (c & Hc & Lc); [apply H, col_max_In, E'|].
    rewrite E' in Ha. rewrite E in Hc. injection Ha as <-. injection Hc as <-. lia.
  - exfalso. apply (proj1 (col_max_None l') E' m), H, col_max_In, E.
  - exfalso. apply (proj1 (col_max_None l) E m'), H, col_max_In, E'.
  - reflexivity.
Qed.

Lemma perm_In_map {A B : Type} (f : A -> B) (l l' : list A) :
  Permutation l l' -> forall x, In x (map f l) <-> In x (map f l').
Proof.
  intros P x. split; apply Permutation_in; [|apply Permutation_sym];
    apply Permutation_map, P.
Qed.

Lemma agg_student_perm (cfg : config) (g g' : DataFrame) :
  Permutation g g' ->
  without_email (agg_student cfg g) = without_email (agg_student cfg g').
Proof.
  intros P. unfold agg_student, without_email. cbn.
  rewrite (round1_eq _ (col_sum (map Duration g')))
    by (apply col_sum_perm, Permutation_map, P).
  rewrite (Permutation_length P).
  rewrite (Permutation_length (filter_perm (longer_than (ghost_join_max_min cfg)) g g' P)).
  rewrite (col_min_ext _ _ (perm_In_map Join_time g g' P)).
  rewrite (col_max_ext _ _ (perm_In_map Leave_time g g' P)).
  reflexivity.
Qed.

Lemma derive_forget (cfg : config) (b : bounds) (k : string) (a a' : agg) :
  without_email a = without_email a' ->
  forget_email (derive cfg b k a) = forget_email (derive cfg b k a').
Proof.
  destruct a, a'. unfold without_email. cbn. intros H.
  injection H as -> -> -> -> ->. reflexivity.
Qed.

Lemma class_bounds_perm (cfg : config) (df df' : DataFrame) :
  Permutation df df' -> class_bounds cfg df = class_bounds cfg df'.
Proof.
  intros P. unfold class_bounds.
  pose proof (filter_perm (is_professor cfg) df df' P) as Pp.
  fold (prof_rows cfg df) in Pp. fold (prof_rows cfg df') in Pp.
  assert (E : empty (prof_rows cfg df) = empty (prof_rows cfg df')).
  { destruct (prof_rows cfg df) as [|x l] eqn:E1;
      destruct (prof_rows cfg df') as [|y l'] eqn:E2; try reflexivity.
    - apply Permutation_nil in Pp. discriminate.
    - apply Permutation_sym, Permutation_nil in Pp. discriminate. }
  rewrite <- E. destruct (empty (prof_rows cfg df)).
  - rewrite (col_min_ext _ _ (perm_In_map Join_time df df' P)).
    rewrite (col_max_ext _ _ (perm_In_map Leave_time df df' P)). reflexivity.
  - rewrite (col_min_ext _ _ (perm_In_map Join_time _ _ Pp)).
    rewrite (col_max_ext _ _ (perm_In_map Leave_time _ _ Pp)). reflexivity.
Qed.

Lemma summarize_perm (cfg : config) (b : bounds) (studs studs' : DataFrame) :
  Permutation studs studs' ->
  map forget_email (summarize cfg b studs) = map forget_email (summarize cfg b studs').
Proof.
  intros P. unfold summarize, groupby. rewrite !map_map. cbn [fst snd].
  rewrite (group_keys_ext studs studs').
  2:{ intros r. split; apply Permutation_in; [|apply Permutation_sym]; exact P. }
  apply map_ext. intros k. apply derive_forget, agg_student_perm.
  apply filter_perm, P.
Qed.

(** X4. The rows of the export may come in any order: the class window
    is the same and, when the durations of the rows kept are whole
    minutes (of a size that [float64] sums exactly in any order), so is
    the summary but for the e-mail addresses, which are the first ones
    met. *)
Theorem row_order_irrelevant (cfg : config) (df df' : DataFrame) :
  Permutation df df' ->
  whole_minutes (students cfg df) ->
  class_bounds cfg df = class_bounds cfg df' /\
  forall b, map forget_email (summarize cfg b (students cfg df))
            = map forget_email (summarize cfg b (students cfg df')).
Proof.
  intros P _. split; [apply class_bounds_perm, P|].
  intros b. apply summarize_perm, filter_perm, P.
Qed.

(** ** Loading, exclusion, order and e-mail *)

Lemma to_datetime_Raise (col : list time_cell) (e : exn) :
  to_datetime col = Raise e ->
  e = DateParseError /\ exists c, In c col /\ unparseable c.
Proof.
  induction col as [|c col IH]; simpl; [discriminate|].
  destruct c as [t| |s].
  - destruct (to_datetime col) as [ts|e'] eqn:E; simpl; [discriminate|].
    intros H. injection H as <-. destruct (IH eq_refl) as (-> & c & Hc & Hu).
    split; [reflexivity|]. exists c. split; [right; exact Hc|exact Hu].
  - destruct (to_datetime col) as [ts|e'] eqn:E; simpl; [discriminate|].
    intros H. injection H as <-. destruct (IH eq_refl) as (-> & c & Hc & Hu).
    split; [reflexivity|]. exists c. split; [right; exact Hc|exact Hu].
  - intros H. injection H as <-. split; [reflexivity|].
    exists (TimeGarbage s). split; [left; reflexivity|exists s; reflexivity].
Qed.

(** X1. Loading is all or nothing. When every join and leave cell can be
    read the frame holds one row per row of the export, in the same order,
    with the names and addresses unchanged, an empty time cell read as NaT
    and a duration that is no number read as missing; otherwise loading
    raises the date error, and some row has a cell that cannot be read. *)
Theorem load_all_or_nothing (csv : list raw_row) :
  (readable csv -> load csv = Ok (map typed_row csv)) /\
  (forall df, load csv = Ok df ->
     readable csv /\ df = map typed_row csv /\ List.length df = List.length csv) /\
  (forall e, load csv = Raise e ->
     e = DateParseError /\
     exists r, In r csv /\
       (unparseable (raw_Join_time r) \/ unparseable (raw_Leave_time r))).
Proof.
  split; [apply load_clean|]. split.
  - intros df H. destruct (load_Ok csv df H) as [-> Hc].
    split; [exact Hc|]. split; [reflexivity|apply length_map].
  - unfold load. intros e H.
    destruct (to_datetime (map raw_Join_time csv)) as [joins|e1] eqn:Ej.
    + destruct (to_datetime (map raw_Leave_time csv)) as [leaves|e2] eqn:El;
        simpl in H; [discriminate|].
      injection H as <-. destruct (to_datetime_Raise _ _ El) as (-> & c & Hc & Hu).
      split; [reflexivity|]. apply in_map_iff in Hc. destruct Hc as (r & <- & Hr).
      exists r. auto.
    + simpl in H. injection H as <-.
      destruct (to_datetime_Raise _ _ Ej) as (-> & c & Hc & Hu).
      split; [reflexivity|]. apply in_map_iff in Hc. destruct Hc as (r & <- & Hr).
      exists r. auto.
Qed.

Lemma isin_spec (o : option string) (values : list string) :
  isin o values = true <-> exists s, o = Some s /\ In s values.
Proof.
  destruct o as [s|]; simpl.
  - rewrite existsb_exists. split.
    + intros (v & Hv & E). apply String.eqb_eq in E. subst v. exists s. auto.
    + intros (s' & E & Hv). injection E as <-. exists s. split; [exact Hv|apply String.eqb_refl].
  - split; [discriminate|]. intros (s & E & _). discriminate.
Qed.

(** X2. No row of the summary bears a name that equals an excluded name
    once both are lower-cased. *)
Theorem excluded_never_summarized (cfg : config) (b : bounds) (df : DataFrame)
    (s : summary_row) (e : string) :
  In s (summarize cfg b (students cfg df)) -> In e (exclude cfg) ->
  lower (Name s) <> lower e.
Proof.
  intros Hs He E. apply summarize_In in Hs. destruct Hs as (k & Hk & ->).
  cbn [Name derive] in E. apply group_keys_In in Hk. destruct Hk as (r & Hr & Hn).
  apply students_In in Hr. destruct Hr as [_ Hr]. unfold is_student in Hr.
  apply negb_true_iff in Hr.
  assert (T : isin (str_lower (User_Name r)) (exclude_lower cfg) = true).
  { apply isin_spec. exists (lower k). rewrite Hn. split; [reflexivity|].
    rewrite E. apply in_map, He. }
  congruence.
Qed.

Lemma class_row_In (name : string) :
  In name (group_keys (students CONFIG class_df)) ->
  In (class_row name)
     (summarize CONFIG (class_bounds CONFIG class_df) (students CONFIG class_df)).
Proof. intros H. apply summarize_In. exists name. split; [exact H|reflexivity]. Qed.


(** X3. The rows of the summary come in strictly increasing order of
    their names, compared character by character. *)
Theorem summary_in_name_order (cfg : config) (b : bounds) (studs : DataFrame) :
  StronglySorted (fun a c => String.ltb a c = true) (map Name (summarize cfg b studs)).
Proof.
  rewrite summarize_Names.
  pose proof (group_keys_sorted studs) as S. pose proof (group_keys_NoDup studs) as N.
  induction S as [|k ks S IH F]; [constructor|].
  inversion N as [|? ? Hk N']; subst.
  constructor; [apply IH, N'|].
  rewrite Forall_forall in F |- *. intros x Hx.
  pose proof (F x Hx) as L. unfold key_le, String.leb in L. unfold String.ltb.
  destruct (String.compare k x) eqn:C; try reflexivity; try discriminate.
  apply String.compare_eq_iff in C. subst x. contradiction.
Qed.

Lemma nonblank_spec (v : string) :
  (nonblank v = true <-> strip v <> EmptyString) /\
  (nonblank v = false <-> strip v = EmptyString).
Proof.
  unfold nonblank. destruct (strip v); split; split; congruence.
Qed.

Lemma first_email_spec (col : list (option string)) :
  (first_email col = EmptyString /\
   forall v, In (Some v) col -> nonblank v = false) \/
  (exists pre post, col = pre ++ Some (first_email col) :: post /\
     nonblank (first_email col) = true /\
     forall v, In (Some v) pre -> nonblank v = false).
Proof.
  induction col as [|[v|] col IH]; simpl.
  - left. split; [reflexivity|intros v []].
  - destruct (nonblank v) eqn:E.
    + right. exists [], col. split; [reflexivity|]. split; [exact E|intros v' []].
    + destruct IH as [[H0 Hall]|(pre & post & Hc & Hn & Hp)].
      * left. split; [exact H0|]. intros v' [Hv|Hv]; [congruence|apply Hall, Hv].
      * right. exists (Some v :: pre), post. split; [simpl; congruence|].
        split; [exact Hn|]. intros v' [Hv|Hv]; [congruence|apply Hp, Hv].
  - destruct IH as [[H0 Hall]|(pre & post & Hc & Hn & Hp)].
    + left. split; [exact H0|]. intros v' [Hv|Hv]; [discriminate|apply Hall, Hv].
    + right. exists (None :: pre), post. split; [simpl; congruence|].
      split; [exact Hn|]. intros v' [Hv|Hv]; [discriminate|apply Hp, Hv].
Qed.

(** X5. The e-mail address of a row of the summary is the first one of
    its group, in the order of the rows, that [str.strip] does not leave
    empty; it is the empty text exactly when the group has none. *)
Theorem email_first_nonblank (cfg : config) (b : bounds) (studs : DataFrame)
    (s : summary_row) :
  In s (summarize cfg b studs) ->
  let emails := map User_Email (get_group studs (Name s)) in
  (Email (Agg s) = EmptyString /\
   forall v, In (Some v) emails -> strip v = EmptyString) \/
  (exists pre post, emails = pre ++ Some (Email (Agg s)) :: post /\
     strip (Email (Agg s)) <> EmptyString /\
     forall v, In (Some v) pre -> strip v = EmptyString).
Proof.
  intros Hs emails. apply summarize_In in Hs. destruct Hs as (k & _ & ->).
  destruct (first_email_spec (map User_Email (get_group studs k)))
    as [[H0 Hall]|(pre & post & Hc & Hn & Hp)].
  - left. split; [exact H0|]. intros v Hv. apply nonblank_spec, Hall, Hv.
  - right. exists pre, post. split; [exact Hc|]. split.
    + apply nonblank_spec, Hn.
    + intros v Hv. apply nonblank_spec, Hp, Hv.
Qed.

(** ** Ghost joins and well-formed rows *)


Lemma col_sum_real (g : Q) (grp : DataFrame) :
  (0 <= g)%Q -> nonneg_durations grp ->
  let n := List.length (filter (longer_than g) grp) in
  (inject_Z (Z.of_nat n) * g <= col_sum (map Duration grp))%Q /\
  ((1 <= n)%nat -> (inject_Z (Z.of_nat n) * g < col_sum (map Duration grp))%Q).
Proof.
  intros Hg. induction grp as [|r grp IH]; intros Hn n.
  - subst n. cbn [filter List.length map col_sum Z.of_nat].
    change (inject_Z 0) with 0%Q. split; [lra|lia].
  - assert (Hn' : nonneg_durations grp)
      by (intros x d Hx; apply Hn; right; exact Hx).
    specialize (IH Hn'). cbv zeta in IH. destruct IH as [IH1 IH2].
    subst n. cbn [filter map col_sum].
    destruct (longer_than g r) eqn:E.
    + apply longer_than_spec in E. destruct E as (d & Ed & Hd).
      rewrite Ed. cbn [List.length]. rewrite Nat2Z.inj_succ. unfold Z.succ.
      rewrite inject_Z_plus.
      set (m := inject_Z (Z.of_nat (List.length (filter (longer_than g) grp)))) in *.
      change (inject_Z 1) with 1%Q.
      split; [|intros _]; nra.
    + destruct (Duration r) as [d|] eqn:Ed.
      * pose proof (Hn r d (or_introl eq_refl) Ed) as Hd.
        split; [lra|]. intros H1. specialize (IH2 H1). lra.
      * split; [exact IH1|exact IH2].
Qed.

(** X8. When no duration is negative and the ghost threshold is at least
    0.05 minute, a student flagged as reconnected is not ghost-only and
    does not get the status Ghost Join. *)
Theorem reconnected_not_ghost (cfg : config) (b : bounds) (studs : DataFrame)
    (s : summary_row) :
  nonneg_durations studs -> (1 # 20 <= ghost_join_max_min cfg)%Q ->
  In s (summarize cfg b studs) ->
  Reconnected s = true -> Ghost_Only s = false /\ Status s <> Ghost_Join.
Proof.
  intros Hn Hg Hs Hr. apply summarize_In in Hs. destruct Hs as (k & _ & ->).
  set (grp := get_group studs k).
  assert (G : Ghost_Only (derive cfg b k (agg_student cfg grp)) = false).
  { cbn [derive Ghost_Only]. cbn [derive Reconnected] in Hr.
    apply Nat.ltb_lt in Hr. cbn [agg_student Real_Sessions] in Hr.
    cbn [agg_student Total_Minutes].
    assert (Hn' : nonneg_durations grp).
    { intros r d Hin. apply Hn. subst grp. apply get_group_In in Hin. tauto. }
    fold grp in Hr. assert (G0 : (0 <= ghost_join_max_min cfg)%Q) by lra.
    destruct (col_sum_real (ghost_join_max_min cfg) grp G0 Hn') as [_ S].
    assert (H1 : (1 <= List.length (filter (longer_than (ghost_join_max_min cfg)) grp))%nat) by lia.
    specialize (S H1).
    set (n := List.length (filter (longer_than (ghost_join_max_min cfg)) grp)) in *.
    assert (N : (2 <= inject_Z (Z.of_nat n))%Q).
    { change 2%Q with (inject_Z 2). rewrite <- Zle_Qle. lia. }
    pose proof (round1_near (col_sum (map Duration grp))) as [R _].
    destruct (Qle_bool _ _) eqn:E; [|reflexivity].
    apply Qle_bool_iff in E. exfalso. nra. }
  split; [exact G|]. rewrite derive_Status, G.
  destruct (fge _ _); discriminate.
Qed.

Lemma min_join_le_max_leave (rows : DataFrame) (j : Timestamp) :
  leaves_after_joins rows -> col_min (map Join_time rows) = Some j ->
  exists l, col_max (map Leave_time rows) = Some l /\ j <= l.
Proof.
  intros H E. apply col_min_In, in_map_iff in E. destruct E as (r & Hj & Hr).
  destruct (H r j Hr Hj) as (l & Hl & Hle).
  destruct (col_max_ge (map Leave_time rows) l) as (m & Hm & Hlm).
  - rewrite <- Hl. apply in_map, Hr.
  - exists m. split; [exact Hm|lia].
Qed.

(** X9. When every row that has a join time has a leave time that is not
    before it, a class window with a start has an end that is not before
    it, so the class duration is not negative; and alike the last leave of
    a student is not before the first join. *)
Theorem wellformed_rows_nonneg_window (cfg : config) (b : bounds)
    (df : DataFrame) :
  leaves_after_joins df ->
  (forall cs, class_start (class_bounds cfg df) = Some cs ->
     exists ce d, class_end (class_bounds cfg df) = Some ce /\ cs <= ce /\
                  class_duration (class_bounds cfg df) = Fin d /\ (0 <= d)%Q) /\
  (forall s fj, In s (summarize cfg b (students cfg df)) ->
     First_Join (Agg s) = Some fj ->
     exists ll, Last_Leave (Agg s) = Some ll /\ fj <= ll).
Proof.
  intros H. split.
  - intros cs Hcs.
    assert (K : exists ce, class_end (class_bounds cfg df) = Some ce /\ cs <= ce).
    { unfold class_bounds in *. destruct (empty (prof_rows cfg df)); cbn in *.
      - apply min_join_le_max_leave; assumption.
      - apply min_join_le_max_leave; [|assumption].
        intros r j Hr. apply H. apply filter_In in Hr. tauto. }
    destruct K as (ce & Hce & Hle). eexists ce, _. split; [exact Hce|].
    split; [exact Hle|]. unfold class_duration. rewrite Hcs, Hce. cbn.
    split; [reflexivity|].
    apply Qle_shift_div_l; [reflexivity|].
    unfold total_seconds, Qle. cbn [Qnum Qden Qmult]. lia.
  - intros s fj Hs Hf. apply summarize_In in Hs. destruct Hs as (k & _ & ->).
    cbn in Hf |- *. apply min_join_le_max_leave; [|exact Hf].
    intros r j Hr. apply H. apply get_group_In in Hr. destruct Hr as [Hr _].
    apply students_In in Hr. tauto.
Qed.

(** ** Percentage, sessions and direction of the flags *)

Lemma round_half_even_le (q : Q) (z : Z) :
  (q <= inject_Z z)%Q -> round_half_even q <= z.
Proof.
  intros H. pose proof (round_half_even_near q) as [_ U].
  assert (K : (inject_Z (round_half_even q) < inject_Z (z + 1))%Q).
  { rewrite inject_Z_plus. change (inject_Z 1) with 1%Q. lra. }
  rewrite <- Zlt_Qlt in K. lia.
Qed.

Lemma round_half_even_ge (q : Q) (z : Z) :
  (inject_Z z <= q)%Q -> z <= round_half_even q.
Proof.
  intros H. pose proof (round_half_even_near q) as [L _].
  assert (K : (inject_Z (z - 1) < inject_Z (round_half_even q))%Q).
  { unfold Z.sub. rewrite inject_Z_plus. change (inject_Z (- (1))) with (- (1))%Q. lra. }
  rewrite <- Zlt_Qlt in K. lia.
Qed.

Lemma round1_le (q : Q) (z : Z) : (q <= z # 10)%Q -> (round1 q <= z # 10)%Q.
Proof.
  intros H. unfold round1.
  assert (K : round_half_even (q * 10) <= z).
  { apply round_half_even_le.
    assert (E : (inject_Z z == (z # 10) * 10)%Q)
      by (unfold Qeq, inject_Z, Qmult; cbn [Qnum Qden]; lia).
    rewrite E. lra. }
  unfold Qle. cbn [Qnum Qden]. lia.
Qed.

Lemma round1_ge (q : Q) (z : Z) : (z # 10 <= q)%Q -> (z # 10 <= round1 q)%Q.
Proof.
  intros H. unfold round1.
  assert (K : z <= round_half_even (q * 10)).
  { apply round_half_even_ge.
    assert (E : (inject_Z z == (z # 10) * 10)%Q)
      by (unfold Qeq, inject_Z, Qmult; cbn [Qnum Qden]; lia).
    rewrite E. lra. }
  unfold Qle. cbn [Qnum Qden]. lia.
Qed.

(** X10. For a class window of positive length the percentage attended
    follows the total: it is not negative when the total is not, at most
    100 when the total does not exceed the class duration, at least 100
    when the total reaches it, and a finite number between 0 and 100 for
    a total between 0 and the class duration.  No cap is applied. *)
Theorem percentage_of_positive_window (cfg : config) (b : bounds)
    (studs : DataFrame) (s : summary_row) (d : Q) :
  In s (summarize cfg b studs) ->
  class_duration b = Fin d -> (0 < d)%Q ->
  ((0 <= Total_Minutes (Agg s))%Q -> Fge (Pct_Attended s) 0) /\
  ((Total_Minutes (Agg s) <= d)%Q -> Fle (Pct_Attended s) 100) /\
  ((d <= Total_Minutes (Agg s))%Q -> Fge (Pct_Attended s) 100) /\
  ((0 <= Total_Minutes (Agg s) <= d)%Q ->
     exists p, Pct_Attended s = Fin p /\ (0 <= p <= 100)%Q).
Proof.
  intros Hs Hd Hpos. apply summarize_In in Hs. destruct Hs as (k & _ & ->).
  set (a := agg_student cfg (get_group studs k)).
  rewrite derive_Pct, Hd. change (Agg (derive cfg b k a)) with a.
  set (t := Total_Minutes a). unfold fdiv.
  assert (Hz : Qeq_bool d 0 = false).
  { destruct (Qeq_bool d 0) eqn:E; [|reflexivity]. apply Qeq_bool_iff in E. lra. }
  rewrite Hz. cbn [fmul100 fround1 Fge Fle].
  assert (L : (0 <= t)%Q -> (0 <= round1 (t / d * 100))%Q).
  { intros Ht. assert (P : (0 <= t / d)%Q) by (apply Qle_shift_div_l; lra).
    apply (Qle_trans _ (0 # 10)); [unfold Qle; cbn; lia|].
    apply round1_ge. assert (E0 : (0 # 10 == 0)%Q) by reflexivity. lra. }
  assert (U : (t <= d)%Q -> (round1 (t / d * 100) <= 100)%Q).
  { intros Ht. assert (P : (t / d <= 1)%Q) by (apply Qle_shift_div_r; lra).
    apply (Qle_trans _ (1000 # 10)); [|unfold Qle; cbn; lia].
    apply round1_le. assert (E0 : (1000 # 10 == 100)%Q) by reflexivity. lra. }
  assert (G : (d <= t)%Q -> (100 <= round1 (t / d * 100))%Q).
  { intros Ht. assert (P : (1 <= t / d)%Q) by (apply Qle_shift_div_l; lra).
    apply (Qle_trans _ (1000 # 10)); [unfold Qle; cbn; lia|].
    apply round1_ge. assert (E0 : (1000 # 10 == 100)%Q) by reflexivity. lra. }
  split; [exact L|]. split; [exact U|]. split; [exact G|].
  intros [H0 H1]. eexists. split; [reflexivity|]. split; [apply L, H0|apply U, H1].
Qed.

Lemma list_sum_cons (a : nat) (l : list nat) : list_sum (a :: l) = (a + list_sum l)%nat.
Proof. reflexivity. Qed.

Lemma count_groups (df : DataFrame) (keys : list string) :
  NoDup keys -> (forall n, In n (names df) -> In n keys) ->
  list_sum (map (fun k => List.length (get_group df k)) keys)
  = List.length (filter named df).
Proof.
  intros Hnd. induction df as [|r df IH]; intros Hk.
  - simpl. clear. induction keys; simpl; auto.
  - simpl in Hk.
    change (filter named (r :: df))
      with (if named r then r :: filter named df else filter named df).
    unfold named at 1.
    destruct (User_Name r) as [n|] eqn:En.
    + cbn [List.length]. rewrite <- IH by (intros n' Hn'; apply Hk; right; exact Hn').
      assert (Hin : In n keys) by (apply Hk; left; reflexivity).
      clear IH Hk. induction keys as [|k keys IHk]; [destruct Hin|].
      inversion Hnd as [|? ? Hnk Hnd']; subst. cbn [map]. rewrite !list_sum_cons.
      unfold get_group at 1. cbn [filter]. unfold has_name at 1. rewrite En.
      cbn [str_eq]. fold (get_group df k).
      destruct (String.eqb n k) eqn:E.
      * apply String.eqb_eq in E. subst k. cbn [List.length].
        assert (M : map (fun k => List.length (get_group (r :: df) k)) keys
                    = map (fun k => List.length (get_group df k)) keys).
        { apply map_ext_in. intros k' Hk'.
          unfold get_group at 1. cbn [filter]. unfold has_name at 1. rewrite En.
          cbn [str_eq]. destruct (String.eqb n k') eqn:E'; [|reflexivity].
          apply String.eqb_eq in E'. subst k'. contradiction. }
        rewrite M. lia.
      * destruct Hin as [->|Hin]; [rewrite String.eqb_refl in E; discriminate|].
        rewrite (IHk Hnd' Hin). lia.
    + rewrite <- IH by (intros n' Hn'; apply Hk; exact Hn').
      f_equal. apply map_ext. intros k. unfold get_group at 1. cbn [filter].
      unfold has_name at 1. rewrite En. reflexivity.
Qed.

(** X7. The session counts of the summary add up to the number of named
    rows kept by the exclusion filter: each such row is counted once. *)
Theorem sessions_conserved (cfg : config) (b : bounds) (df : DataFrame) :
  list_sum (map (fun s => Raw_Sessions (Agg s)) (summarize cfg b (students cfg df)))
  = List.length (filter named (students cfg df)).
Proof.
  set (studs := students cfg df).
  rewrite <- (count_groups studs (group_keys studs)).
  - unfold summarize, groupby. rewrite !map_map. reflexivity.
  - apply group_keys_NoDup.
  - intros n Hn. apply group_keys_In, names_In, Hn.
Qed.

Lemma minutes_pos (td : Z) : (0 < total_seconds td / 60)%Q -> 0 < td.
Proof.
  intros H. destruct (Z_lt_le_dec 0 td) as [L|L]; [exact L|].
  pose proof (minutes_nonpos td L). lra.
Qed.

(** X11. With thresholds that are not negative, a student flagged late
    joined strictly after the class start, and a student flagged as having
    left early left strictly before the class end. *)
Theorem flagged_late_joined_after_start (cfg : config) (b : bounds)
    (studs : DataFrame) (s : summary_row) :
  (0 <= late_threshold_min cfg)%Q -> (0 <= early_leave_threshold_min cfg)%Q ->
  In s (summarize cfg b studs) ->
  (Is_Late s = true ->
     exists cs fj, class_start b = Some cs /\ First_Join (Agg s) = Some fj /\ cs < fj) /\
  (Left_Early s = true ->
     exists ce ll, class_end b = Some ce /\ Last_Leave (Agg s) = Some ll /\ ll < ce).
Proof.
  intros Hl He Hs. apply summarize_In in Hs. destruct Hs as (k & _ & ->).
  set (a := agg_student cfg (get_group studs k)).
  unfold derive. cbn [Agg Is_Late Left_Early].
  assert (K : forall x y t, (0 <= t)%Q ->
            fgt (fclip0 (fround1 (minutes_between x y))) t = true ->
            exists u v, x = Some u /\ y = Some v /\ u < v).
  { intros [u|] [v|] t Ht; cbn; try discriminate.
    intros H. exists u, v. split; [reflexivity|]. split; [reflexivity|].
    apply negb_true_iff in H.
    destruct (Qle_bool (round1 (total_seconds (v - u) / 60)) 0) eqn:E.
    - exfalso. apply Qle_bool_iff in Ht. congruence.
    - assert (P : ~ (total_seconds (v - u) / 60 <= 0)%Q).
      { intros N. apply round1_nonpos, Qle_bool_iff in N. congruence. }
      apply Qnot_le_lt, minutes_pos in P. lia. }
  split; intros H.
  - destruct (K _ _ _ Hl H) as (u & v & Hu & Hv & L).
    exists u, v. auto.
  - destruct (K _ _ _ He H) as (u & v & Hu & Hv & L).
    exists v, u. auto.
Qed.

(** ** Flags, counts and choice of the files *)

(** X12. The text of flags of a row is empty exactly when the row is
    neither late, nor left early, nor reconnected, nor ghost-only. *)
Theorem flags_empty_iff (r : summary_row) :
  build_flags r = EmptyString <->
  Is_Late r = false /\ Left_Early r = false /\
  Reconnected r = false /\ Ghost_Only r = false.
Proof.
  unfold build_flags.
  destruct (Is_Late r), (Left_Early r), (Reconnected r), (Ghost_Only r);
    cbn [app String.concat String.append];
    split; try (intros H; discriminate H);
    try (intros (H1 & H2 & H3 & H4); discriminate);
    try reflexivity; try (intros _; repeat split; reflexivity).
Qed.

Lemma status_count (summ : list summary_row) :
  (len_present summ + len_absent summ + len_ghosts summ = List.length summ)%nat.
Proof.
  unfold len_present, len_absent, len_ghosts, with_status.
  induction summ as [|s summ IH]; [reflexivity|].
  cbn [filter List.length]. destruct (Status s); cbn [status_eqb List.length]; lia.
Qed.

(** X13. The present, absent and ghost rows are all the rows of the
    summary; the attendance rate lies between 0 and 100, is the share of
    the present among the present and absent when there is one of them,
    and is 0 when nobody is present. *)
Theorem attendance_rate_bounds (summ : list summary_row) :
  (len_present summ + len_absent summ + len_ghosts summ = List.length summ)%nat /\
  (0 <= attendance_rate summ <= 100)%Q /\
  ((1 <= len_present summ + len_absent summ)%nat ->
   (attendance_rate summ
    == inject_Z (Z.of_nat (len_present summ))
       / inject_Z (Z.of_nat (len_present summ + len_absent summ)) * 100)%Q) /\
  (len_present summ = 0%nat -> (attendance_rate summ == 0)%Q).
Proof.
  pose proof (status_count summ) as C.
  split; [exact C|].
  unfold attendance_rate.
  set (p := len_present summ) in *. set (a := len_absent summ) in *.
  set (g := len_ghosts summ) in *.
  set (m := Z.max (Z.of_nat (List.length summ) - Z.of_nat g) 1).
  assert (Hm : 1 <= m) by (subst m; lia).
  assert (Hp : Z.of_nat p <= m) by (subst m; lia).
  assert (Qm : (1 <= inject_Z m)%Q) by (change 1%Q with (inject_Z 1); rewrite <- Zle_Qle; exact Hm).
  assert (Qp : (0 <= inject_Z (Z.of_nat p) <= inject_Z m)%Q)
    by (split; [change 0%Q with (inject_Z 0)|]; rewrite <- Zle_Qle; lia).
  split; [|split].
  - assert (L : (0 <= inject_Z (Z.of_nat p) / inject_Z m)%Q)
      by (apply Qle_shift_div_l; lra).
    assert (U : (inject_Z (Z.of_nat p) / inject_Z m <= 1)%Q)
      by (apply Qle_shift_div_r; lra).
    split; lra.
  - intros H. replace m with (Z.of_nat (p + a)) by (subst m; lia). reflexivity.
  - intros H. rewrite H. unfold Qdiv. change (inject_Z (Z.of_nat 0)) with 0%Q. lra.
Qed.


(** The choice of the files once the arguments are parsed. *)
Lemma main_files_cases (args : arguments) (found : list string) (typed : string) :
  (forall f, args_file args = Some f -> f <> EmptyString ->
     main_files args found typed = Return [f]) /\
  (args_file args = None \/ args_file args = Some EmptyString ->
     main_files args found typed
     = if args_all args
       then (if empty found then Exit 1 else Return found)
       else pick_file_interactively found typed) /\
  (forall sel, main_files args found typed = Return sel -> sel <> []) /\
  (forall code, main_files args found typed = Exit code -> code = 1).
Proof.
  unfold main_files. split.
  { intros f -> Hf. destruct f; [contradiction|reflexivity]. }
  split.
  { intros [->| ->]; reflexivity. }
  assert (P : forall sel, pick_file_interactively found typed = Return sel -> sel <> []).
  { intros sel H. unfold pick_file_interactively in H.
    destruct found as [|f0 found]; [discriminate|]. cbn [empty] in H.
    destruct (String.eqb _ _); [injection H as <-; discriminate|].
    destruct (int_of_string _); [|discriminate].
    destruct (andb _ _); [injection H as <-|]; discriminate. }
  assert (E : forall code, pick_file_interactively found typed = Exit code -> code = 1).
  { intros code. unfold pick_file_interactively.
    destruct (empty found); [intros H; injection H as <-; reflexivity|].
    destruct (String.eqb _ _); [discriminate|].
    destruct (int_of_string _); [|intros H; injection H as <-; reflexivity].
    destruct (andb _ _); [discriminate|intros H; injection H as <-; reflexivity]. }
  split.
  - intros sel. destruct (args_file args) as [[|c f]|].
    + destruct (args_all args); [|apply P].
      destruct found; cbn [empty]; [discriminate|]. intros H. injection H as <-. discriminate.
    + intros H. injection H as <-. discriminate.
    + destruct (args_all args); [|apply P].
      destruct found; cbn [empty]; [discriminate|]. intros H. injection H as <-. discriminate.
  - intros code. destruct (args_file args) as [[|c f]|]; try discriminate.
    + destruct (args_all args); [|apply E].
      destruct (empty found); [intros H; injection H as <-; reflexivity|discriminate].
    + destruct (args_all args); [|apply E].
      destruct (empty found); [intros H; injection H as <-; reflexivity|discriminate].
Qed.

(** X15. [main] ends as [parse_args] does when that exits.  Otherwise a
    file named on the command line is the only one processed, whatever
    the other options; an empty name counts as none, and then --all takes
    every file found, exiting with status 1 when there is none, and
    without --all the choice is interactive.  The files to process are
    never an empty list, and an exit after the arguments are parsed has
    status 1. *)
Theorem main_choice (parsed : outcome arguments) (found : list string)
    (typed : string) :
  (forall code, parsed = Exit code -> main parsed found typed = Exit code) /\
  (forall args, parsed = Return args ->
     (forall f, args_file args = Some f -> f <> EmptyString ->
        main parsed found typed = Return [f]) /\
     (args_file args = None \/ args_file args = Some EmptyString ->
        main parsed found typed
        = if args_all args
          then (if empty found then Exit 1 else Return found)
          else pick_file_interactively found typed) /\
     (forall code, main parsed found typed = Exit code -> code = 1)) /\
  (forall sel, main parsed found typed = Return sel -> sel <> []).
Proof.
  split; [intros code ->; reflexivity|]. split.
  - intros args ->. cbn [main].
    destruct (main_files_cases args found typed) as (H1 & H2 & _ & H4).
    split; [exact H1|]. split; [exact H2|exact H4].
  - intros sel. destruct parsed as [args|code]; cbn [main]; [|discriminate].
    apply (main_files_cases args found typed).
Qed.

(** X16. The loop over the files ends at the first file whose analysis
    raises: the run ends with an exception, and what the loop does is the
    same whatever files come after that one, which are not analysed. *)
Theorem analyze_each_stops (cfg : config) (pre post : list (list raw_row))
    (bad : list raw_row) (e : exn) :
  analyze_file cfg bad = Raise e ->
  analyze_each cfg (pre ++ bad :: post) = analyze_each cfg (pre ++ [bad]) /\
  (List.length (fst (analyze_each cfg (pre ++ bad :: post))) <= List.length pre)%nat /\
  exists e', snd (analyze_each cfg (pre ++ bad :: post)) = Some e'.
Proof.
  intros Hb. induction pre as [|csv pre IH]; cbn [app analyze_each].
  - rewrite Hb. cbn. split; [reflexivity|]. split; [lia|]. exists e. reflexivity.
  - destruct IH as (I1 & I2 & e' & I3).
    destruct (analyze_file cfg csv) as [out|e0].
    + rewrite I1.
      destruct (analyze_each cfg (pre ++ bad :: post)) as [done err] eqn:E.
      rewrite <- I1. cbn [fst snd List.length] in *.
      split; [reflexivity|]. split; [lia|]. exists e'. exact I3.
    + cbn. split; [reflexivity|]. split; [lia|]. exists e0. reflexivity.
Qed.

(** ** What the analysis needs *)

(** X17. The analysis of an export raises whenever a join or leave cell
    cannot be read, or the frame has rows but no name, or the class start
    or the class end is NaT, or no named row is kept by the exclusion
    filter; so an analysis that returns has none of these. *)
Theorem analysis_raises_unless (cfg : config) (csv : list raw_row) :
  let df := map typed_row csv in
  ((exists out, analyze_file cfg csv = Ok out) ->
     readable csv /\ text_names df /\
     (exists cs, class_start (class_bounds cfg df) = Some cs) /\
     (exists ce, class_end (class_bounds cfg df) = Some ce) /\
     (exists y n, In y df /\ User_Name y = Some n /\ is_student cfg y = true)) /\
  ((exists r, In r csv /\
      (unparseable (raw_Join_time r) \/ unparseable (raw_Leave_time r))) \/
   ~ text_names df \/
   class_start (class_bounds cfg df) = None \/
   class_end (class_bounds cfg df) = None \/
   (forall y n, In y df -> User_Name y = Some n -> is_student cfg y = false) ->
   exists e, analyze_file cfg csv = Raise e).
Proof.
  intros df.
  assert (N : (exists out, analyze_file cfg csv = Ok out) ->
     readable csv /\ text_names df /\
     (exists cs, class_start (class_bounds cfg df) = Some cs) /\
     (exists ce, class_end (class_bounds cfg df) = Some ce) /\
     (exists y n, In y df /\ User_Name y = Some n /\ is_student cfg y = true)).
  { intros (out & H).
    destruct (analyze_file_Ok cfg csv out H)
      as (Hl & Ht & Hw & _ & Hs & Hne & (cs & Hcs) & (ce & Hce)).
    fold df in Hl, Ht, Hw, Hs. rewrite Hw in Hcs, Hce.
    split; [exact (proj2 (load_Ok csv df Hl))|]. split; [exact Ht|].
    split; [exists cs; exact Hcs|]. split; [exists ce; exact Hce|].
    rewrite Hs in Hne.
    destruct (summarize cfg (window out) (students cfg df)) as [|s l] eqn:Es;
      [contradiction|].
    assert (Hin : In s (summarize cfg (window out) (students cfg df)))
      by (rewrite Es; left; reflexivity).
    apply summarize_In in Hin. destruct Hin as (k & Hk & _).
    apply group_keys_In in Hk. destruct Hk as (y & Hy & Hn).
    apply students_In in Hy. exists y, k. tauto. }
  split; [exact N|].
  intros H. destruct (analyze_file cfg csv) as [out|e] eqn:E; [|exists e; reflexivity].
  exfalso.
  destruct (N (ex_intro _ out eq_refl)) as (Hr & Ht & (cs & Hcs) & (ce & Hce) & (y & n & Hy & Hn & Hs)).
  destruct H as [(r & Hin & Hu)|[H|[H|[H|H]]]].
  - destruct (Hr r Hin) as [H1 H2]. tauto.
  - contradiction.
  - congruence.
  - congruence.
  - rewrite (H y n Hy Hn) in Hs. discriminate.
Qed.

End Properties.

(** * The theorems on the sample exports *)

#[global] Existing Instance ascii_python.

Lemma class_text_names : text_names class_df.
Proof.
  right. eexists. eexists. split; [left; reflexivity|reflexivity].
Qed.

Lemma class_whole_minutes : whole_minutes (students CONFIG class_df).
Proof.
  split; [|vm_compute; discriminate].
  intros r d Hin Hd. vm_compute in Hin.
  repeat (destruct Hin as [<-|Hin];
          [injection Hd as <-;
           match goal with |- exists z, (?q == _)%Q => exists (Qnum q) end;
           vm_compute; reflexivity|]).
  destruct Hin.
Qed.

Lemma status_precedence_witness :
  Status (derive CONFIG (class_bounds CONFIG class_df) "Dee"
            (agg_student CONFIG (get_group (students CONFIG class_df) "Dee")))
  = Ghost_Join.
Proof.
  refine (proj1 (status_precedence CONFIG (class_bounds CONFIG class_df)
                   (students CONFIG class_df) _ _) _).
  - apply summarize_In. exists "Dee"%string. split; [|reflexivity].
    vm_compute. tauto.
  - vm_compute. discriminate.
Defined.

Lemma class_window_resolution_witness :
  exists b, class_window CONFIG class_df = Ok b /\
    ((exists r, In r class_df /\ matches_authority CONFIG r) ->
       earliest (matches_authority CONFIG) Join_time class_df (class_start b) /\
       latest (matches_authority CONFIG) Leave_time class_df (class_end b) /\
       printed b = []) /\
    (~ (exists r, In r class_df /\ matches_authority CONFIG r) ->
       earliest (fun _ => True) Join_time class_df (class_start b) /\
       latest (fun _ => True) Leave_time class_df (class_end b) /\
       printed b = [ProfessorNotFound (professor CONFIG)]).
Proof.
  apply (class_window_resolution CONFIG class_df). exact class_text_names.
Defined.

(** C2, as stated, fails: in a frame whose only row has no name, no row
    matches the professor, yet no window is resolved and no warning is
    printed: line 85 raises. *)
Lemma class_window_counterexample :
  ~ (exists r, In r nameless_df /\ matches_authority CONFIG r) /\
  class_window CONFIG nameless_df = Raise AttributeError /\
  analyze_frame CONFIG nameless_df = Raise AttributeError /\
  ~ (exists b, class_window CONFIG nameless_df = Ok b /\
               printed b = [ProfessorNotFound (professor CONFIG)]).
Proof.
  split; [|split; [reflexivity|split; [reflexivity|]]].
  - intros (r & [<-|[]] & n & Hn & _). discriminate Hn.
  - intros (b & H & _). discriminate H.
Qed.

Lemma session_counts_witness :
  (1 <= Raw_Sessions (agg_student CONFIG (get_group (students CONFIG class_df) "Cyd")))%nat /\
  (Real_Sessions (agg_student CONFIG (get_group (students CONFIG class_df) "Cyd"))
   <= Raw_Sessions (agg_student CONFIG (get_group (students CONFIG class_df) "Cyd")))%nat.
Proof.
  apply (session_counts CONFIG (class_bounds CONFIG class_df)
           (students CONFIG class_df)
           (derive CONFIG (class_bounds CONFIG class_df) "Cyd"
              (agg_student CONFIG (get_group (students CONFIG class_df) "Cyd")))).
  apply summarize_In. exists "Cyd"%string. split; [|reflexivity].
  vm_compute. tauto.
Defined.

Lemma unnamed_row_dropped_witness :
  In unnamed_row (students CONFIG unnamed_df) /\
  summarize CONFIG (class_bounds CONFIG unnamed_df) (students CONFIG unnamed_df)
  = summarize CONFIG (class_bounds CONFIG unnamed_df)
      (students CONFIG (tl class_df ++ [])).
Proof.
  assert (T : text_names (tl class_df ++ [unnamed_row])).
  { right. eexists. eexists. split; [left; reflexivity|reflexivity]. }
  pose proof (unnamed_row_dropped CONFIG (class_bounds CONFIG unnamed_df)
                (tl class_df) [] unnamed_row eq_refl T) as H.
  split; [exact (proj1 (proj2 H))|exact (proj1 (proj2 (proj2 (proj2 H))))].
Defined.

(** C10, as stated, fails: when the row without a name is the only row,
    it passes no filter and bounds no window: lines 85 and 103 raise. *)
Lemma unnamed_row_counterexample :
  User_Name (typed_row nameless_raw) = None /\
  students_of CONFIG nameless_df = Raise AttributeError /\
  class_window CONFIG nameless_df = Raise AttributeError /\
  analyze_file CONFIG [nameless_raw] = Raise AttributeError.
Proof. repeat split. Qed.

Lemma grouping_by_exact_name_witness :
  NoDup (map Name (summarize CONFIG (class_bounds CONFIG case_df)
                     (students CONFIG case_df))).
Proof.
  exact (proj1 (grouping_by_exact_name CONFIG (class_bounds CONFIG case_df) case_df)).
Defined.

(** C5, as stated, fails: "Alice" and "alice" are equal once lower-cased
    and trimmed, both are kept, and they get two groups and two rows of
    the summary. *)
Lemma grouping_counterexample :
  let studs := students CONFIG case_df in
  let r1 := typed_row (session "Alice" (at_time 9 0 0) (at_time 9 30 0) 30) in
  let r2 := typed_row (session "alice" (at_time 9 30 0) (at_time 10 0 0) 30) in
  In r1 studs /\ In r2 studs /\
  lower (strip "Alice") = lower (strip "alice") /\
  ~ (exists k, In r1 (get_group studs k) /\ In r2 (get_group studs k)) /\
  map Name (summarize CONFIG (class_bounds CONFIG case_df) studs)
  = ["Alice"%string; "alice"%string].
Proof.
  intros studs r1 r2.
  assert (I1 : In r1 studs) by (vm_compute; tauto).
  assert (I2 : In r2 studs) by (vm_compute; tauto).
  split; [exact I1|]. split; [exact I2|]. split; [reflexivity|].
  split; [|reflexivity].
  intros H.
  apply (same_group_iff studs r1 r2 "Alice" "alice" I1 I2 eq_refl eq_refl) in H.
  discriminate H.
Qed.

Lemma conservation_whole_minutes_witness :
  (sum_totals (summarize CONFIG (class_bounds CONFIG class_df)
                 (students CONFIG class_df))
   == col_sum (map Duration (filter named (students CONFIG class_df))))%Q.
Proof.
  apply (conservation_whole_minutes CONFIG (class_bounds CONFIG class_df) class_df).
  exact class_whole_minutes.
Defined.

(** C7, as stated, fails in two ways: a total is rounded (12.34 minutes
    are summed as 12.3), and the minutes of a row without a name, which is
    kept by the exclusion filter, are in no total. *)
Lemma conservation_counterexample :
  ~ (sum_totals (summarize CONFIG (class_bounds CONFIG decimal_df)
                   (students CONFIG decimal_df))
     == col_sum (map Duration (students CONFIG decimal_df)))%Q /\
  ~ (sum_totals (summarize CONFIG (class_bounds CONFIG unnamed_df)
                   (students CONFIG unnamed_df))
     == col_sum (map Duration (students CONFIG unnamed_df)))%Q.
Proof.
  split; vm_compute; discriminate.
Qed.



Lemma lateness_rounded_witness :
  exists q,
    Late_Join_Min (derive CONFIG (class_bounds CONFIG class_df) "Bob"
                     (agg_student CONFIG (get_group (students CONFIG class_df) "Bob")))
    = Fin q /\
    (q == Qmax 0 (round1 (total_seconds (at_time 9 15 0 - at_time 9 0 0) / 60)))%Q.
Proof.
  destruct (lateness_rounded CONFIG (class_bounds CONFIG class_df)
              (students CONFIG class_df)
              (derive CONFIG (class_bounds CONFIG class_df) "Bob"
                 (agg_student CONFIG (get_group (students CONFIG class_df) "Bob")))
              (at_time 9 0 0) (at_time 10 0 0)) as (H & _).
  - apply summarize_In. exists "Bob"%string. split; [|reflexivity].
    vm_compute. tauto.
  - reflexivity.
  - reflexivity.
  - destruct (H (at_time 9 15 0) eq_refl) as (q & Hq & Hm & _).
    exists q. split; assumption.
Defined.

(** C9, as stated, fails: joining 10 minutes and 2 seconds after the
    start is 10.0 minutes late once rounded, not the 10.03 minutes that
    separate the two times, and is not late under a threshold of 10. *)
Lemma lateness_counterexample :
  let b := class_bounds CONFIG late_df in
  let s := derive CONFIG b "Ann"
             (agg_student CONFIG (get_group (students CONFIG late_df) "Ann")) in
  let exact := Qmax 0 (total_seconds (at_time 9 10 2 - at_time 9 0 0) / 60) in
  In s (summarize CONFIG b (students CONFIG late_df)) /\
  class_start b = Some (at_time 9 0 0) /\
  First_Join (Agg s) = Some (at_time 9 10 2) /\
  Late_Join_Min s = Fin (100 # 10) /\
  ~ (100 # 10 == exact)%Q /\
  (late_threshold_min CONFIG < exact)%Q /\
  Is_Late s = false.
Proof.
  intros b s exact.
  split; [vm_compute; tauto|].
  repeat (split; [reflexivity|]).
  split; [vm_compute; discriminate|].
  split; reflexivity.
Qed.

Lemma degenerate_window_unguarded_witness :
  Pct_Attended (derive CONFIG (class_bounds CONFIG degenerate_df) "Ann"
                  (agg_student CONFIG (get_group (students CONFIG degenerate_df) "Ann")))
  = PInf.
Proof.
  refine (proj1 (proj2 (proj1
    (degenerate_window_unguarded CONFIG (class_bounds CONFIG degenerate_df)
       (students CONFIG degenerate_df) _ (0 # 60000000000) _ _ _) _)) _).
  - apply summarize_In. exists "Ann"%string. split; [|reflexivity].
    vm_compute. tauto.
  - reflexivity.
  - vm_compute. discriminate.
  - reflexivity.
  - reflexivity.
Defined.

(** C3, as stated, fails: when the professor's join and leave times
    coincide the analysis goes through and a student present for 5
    minutes has attended an infinite percentage of the class. *)
Lemma degenerate_window_counterexample :
  exists out s d,
    analyze_file CONFIG degenerate_csv = Ok out /\
    duration_min out = Fin d /\ (d == 0)%Q /\
    In s (summary out) /\ Name s = "Ann"%string /\
    Pct_Attended s = PInf.
Proof.
  eexists. eexists. eexists.
  split; [vm_compute; reflexivity|].
  split; [reflexivity|]. split; [reflexivity|].
  split; [left; reflexivity|]. split; reflexivity.
Qed.

Lemma unparseable_timestamp_aborts_witness :
  load (class_csv ++ [footer_raw]) = Raise DateParseError /\
  analyze_file CONFIG (class_csv ++ [footer_raw]) = Raise DateParseError.
Proof.
  apply (unparseable_timestamp_aborts CONFIG (class_csv ++ [footer_raw]) footer_raw).
  - apply in_elt.
  - left. exists "--"%string. reflexivity.
Defined.

(** C4, as stated, fails: the class export is analysed, but with a footer
    line after it the analysis raises instead of skipping the line. *)
Lemma unparseable_timestamp_counterexample :
  (exists out, analyze_file CONFIG class_csv = Ok out) /\
  ~ (exists out, analyze_file CONFIG (class_csv ++ [footer_raw]) = Ok out).
Proof.
  split.
  - eexists. vm_compute. reflexivity.
  - intros (out & H). vm_compute in H. discriminate H.
Qed.

Lemma excluded_never_summarized_witness :
  lower (Name (class_row "Ann")) <> lower "Vivek Chaurasia".
Proof.
  apply (excluded_never_summarized CONFIG (class_bounds CONFIG class_df) class_df
           (class_row "Ann") "Vivek Chaurasia").
  - apply class_row_In. vm_compute. tauto.
  - right. right. left. reflexivity.
Defined.

Lemma row_order_irrelevant_witness :
  class_bounds CONFIG class_df = class_bounds CONFIG (rev class_df).
Proof.
  exact (proj1 (row_order_irrelevant CONFIG class_df (rev class_df)
                  (Permutation_rev class_df) class_whole_minutes)).
Defined.

Lemma email_first_nonblank_witness :
  let s := derive CONFIG (class_bounds CONFIG email_df) "Ann"
             (agg_student CONFIG (get_group email_df "Ann")) in
  let emails := map User_Email (get_group email_df (Name s)) in
  (Email (Agg s) = EmptyString /\
   forall v, In (Some v) emails -> strip v = EmptyString) \/
  (exists pre post, emails = pre ++ Some (Email (Agg s)) :: post /\
     strip (Email (Agg s)) <> EmptyString /\
     forall v, In (Some v) pre -> strip v = EmptyString).
Proof.
  apply (email_first_nonblank CONFIG (class_bounds CONFIG email_df) email_df).
  apply summarize_In. exists "Ann"%string. split; [|reflexivity].
  vm_compute. tauto.
Defined.

Lemma class_nonneg : nonneg_durations (students CONFIG class_df).
Proof.
  intros r d Hin Hd. vm_compute in Hin.
  repeat (destruct Hin as [<-|Hin];
          [injection Hd as <-; vm_compute; discriminate|]).
  destruct Hin.
Qed.

Lemma reconnected_not_ghost_witness :
  Ghost_Only (class_row "Cyd") = false /\ Status (class_row "Cyd") <> Ghost_Join.
Proof.
  apply (reconnected_not_ghost CONFIG (class_bounds CONFIG class_df)
           (students CONFIG class_df)).
  - exact class_nonneg.
  - vm_compute. discriminate.
  - apply class_row_In. vm_compute. tauto.
  - reflexivity.
Defined.

Lemma class_leaves_after_joins : leaves_after_joins class_df.
Proof.
  intros r j Hin Hj. vm_compute in Hin.
  repeat (destruct Hin as [<-|Hin];
          [injection Hj as <-; eexists; split; [reflexivity|vm_compute; discriminate]|]).
  destruct Hin.
Qed.

Lemma wellformed_rows_nonneg_window_witness :
  exists ce d, class_end (class_bounds CONFIG class_df) = Some ce /\
    at_time 9 0 0 <= ce /\
    class_duration (class_bounds CONFIG class_df) = Fin d /\ (0 <= d)%Q.
Proof.
  apply (proj1 (wellformed_rows_nonneg_window CONFIG (class_bounds CONFIG class_df)
                  class_df class_leaves_after_joins)).
  reflexivity.
Defined.

Lemma percentage_of_positive_window_witness :
  exists p, Pct_Attended (class_row "Bob") = Fin p /\ (0 <= p <= 100)%Q.
Proof.
  assert (H3 : In "Bob"%string (group_keys (students CONFIG class_df)))
    by (vm_compute; tauto).
  assert (Hd : class_duration (class_bounds CONFIG class_df)
               = Fin (total_seconds (at_time 10 0 0 - at_time 9 0 0) / 60)%Q)
    by reflexivity.
  assert (Hp : (0 < total_seconds (at_time 10 0 0 - at_time 9 0 0) / 60)%Q)
    by reflexivity.
  apply (proj2 (proj2 (proj2
    (percentage_of_positive_window CONFIG (class_bounds CONFIG class_df)
       (students CONFIG class_df) (class_row "Bob") _ (class_row_In "Bob" H3) Hd Hp)))).
  split; vm_compute; discriminate.
Defined.

Lemma flagged_late_joined_after_start_witness :
  exists cs fj, class_start (class_bounds CONFIG class_df) = Some cs /\
    First_Join (Agg (class_row "Bob")) = Some fj /\ cs < fj.
Proof.
  assert (H1 : (0 <= late_threshold_min CONFIG)%Q) by (vm_compute; discriminate).
  assert (H2 : (0 <= early_leave_threshold_min CONFIG)%Q) by (vm_compute; discriminate).
  assert (H3 : In "Bob"%string (group_keys (students CONFIG class_df)))
    by (vm_compute; tauto).
  apply (proj1 (flagged_late_joined_after_start CONFIG (class_bounds CONFIG class_df)
                  (students CONFIG class_df) (class_row "Bob") H1 H2
                  (class_row_In "Bob" H3))).
  reflexivity.
Defined.

Lemma analyze_each_stops_witness :
  analyze_each CONFIG ([class_csv] ++ (class_csv ++ [footer_raw]) :: [case_csv])
  = analyze_each CONFIG ([class_csv] ++ [class_csv ++ [footer_raw]]) /\
  (List.length (fst (analyze_each CONFIG
      ([class_csv] ++ (class_csv ++ [footer_raw]) :: [case_csv]))) <= 1)%nat /\
  exists e', snd (analyze_each CONFIG
      ([class_csv] ++ (class_csv ++ [footer_raw]) :: [case_csv])) = Some e'.
Proof.
  apply (analyze_each_stops CONFIG [class_csv] [case_csv] (class_csv ++ [footer_raw])
           DateParseError).
  vm_compute. reflexivity.
Defined.
